(** * myFlix API: a shallow embedding of [index.js]

    The route handlers of [index.js] are embedded as programs over the
    queries they send to the two Mongoose models ([Users], [Movies]); an
    interpreter runs such a program against an in-memory image of the two
    collections and records every query that was issued.

    Conventions of the embedding
    - a JavaScript value that is either a string or [undefined]/[null]
      (a field of [req.body], a field of a stored document) is an
      [option string];
    - a string is the sequence of the bytes of its UTF-8 encoding, as a
      string literal of Rocq is: a letter or a digit of ASCII is one byte,
      and [Validator.characters] counts what validator.js counts;
    - [models.js], [auth.js] and [passport.js] are not part of the sources:
      the password hash, the bearer-token check and the e-mail syntax check
      of validator.js are parameters of the development;
    - the schema of [models.js] being absent, values are stored as they are
      received (no cast to Date or ObjectId) and the storage layer enforces
      no unique index. *)

From Stdlib Require Import String Ascii List Bool Arith ZArith Lia.
Import ListNotations.
Open Scope string_scope.

Set Implicit Arguments.

(** ** JavaScript odds and ends *)

(** An [Error] object: [err.name] and [err.message]. *)
Record Error : Type := mkError { name : string; message : string }.

(** ['...' + err] uses [Error.prototype.toString]: the name alone when
    the message is empty, the message alone when the name is. *)
Definition Error_toString (e : Error) : string :=
  if name e =? "" then message e
  else if message e =? "" then name e
  else name e ++ ": " ++ message e.

Definition TypeError (m : string) : Error := mkError "TypeError" m.

(** [x + '...'] where [x] may be [undefined]. *)
Definition String_of (v : option string) : string :=
  match v with
  | Some s => s
  | None => "undefined"
  end.

(** Truthiness of a string-or-undefined value: [undefined] and [''] are
    falsy. *)
Definition truthy (v : option string) : bool :=
  match v with
  | None => false
  | Some s => negb (s =? "")
  end.

(** Strict equality [===] on string-or-undefined values. *)
Definition strict_eq (a b : option string) : bool :=
  match a, b with
  | Some x, Some y => x =? y
  | None, None => true
  | _, _ => false
  end.

(** [Array.prototype.indexOf]: the first index whose element is strictly
    equal to [x], or -1. *)
Fixpoint indexOf_from (i : Z) (l : list string) (x : option string) : Z :=
  match l with
  | [] => (-1)%Z
  | y :: r => if strict_eq (Some y) x then i else indexOf_from (i + 1)%Z r x
  end.

Definition indexOf (l : list string) (x : option string) : Z :=
  indexOf_from 0%Z l x.

(** ** Documents *)

Record User : Type := mkUser {
  Username : option string;
  Password : option string;
  Email : option string;
  Birthday : option string;
  FavoriteMovies : list string
}.

(** The [Genre] and [Director] sub-documents of a movie. *)
Record SubDoc : Type := mkSubDoc {
  Name : string;
  Description : string
}.

Record Movie : Type := mkMovie {
  _id : string;
  Title : string;
  Genre : SubDoc;
  Director : SubDoc
}.

(** The two collections, in natural (insertion) order. *)
Record Store : Type := mkStore {
  users : list User;
  movies : list Movie
}.

(** ** Requests and responses *)

Record Body : Type := mkBody {
  bUsername : option string;
  bPassword : option string;
  bEmail : option string;
  bBirthday : option string
}.

(** [req.params]: Express binds the names that occur in the route
    pattern. *)
Record Params : Type := mkParams {
  pUsername : string;
  pMovieID : string;
  pTitle : string;
  pName : string
}.

Record Request : Type := mkRequest {
  authorization : option string;
  params : Params;
  body : Body
}.

(** One entry of [validationResult(req).array()]. *)
Record ValidationError : Type := mkValidationError {
  value : option string;
  msg : string;
  param : string;
  location : string
}.

Inductive Json : Type :=
| JNull
| JUser (u : User)
| JUsers (l : list User)
| JMovie (m : Movie)
| JMovies (l : list Movie)
| JSubDoc (d : SubDoc)
| JErrors (errors : list ValidationError).

Inductive Payload : Type :=
| Text (s : string)
| JsonBody (j : Json).

Record Response : Type := mkResponse {
  status : nat;
  payload : Payload
}.

(** [res.status(n).send(s)], [res.status(n).json(j)]; [res.send] and
    [res.json] alone answer with status 200. *)
Definition res_status_send (n : nat) (s : string) : Response :=
  mkResponse n (Text s).
Definition res_status_json (n : nat) (j : Json) : Response :=
  mkResponse n (JsonBody j).
Definition res_send (s : string) : Response := res_status_send 200 s.
Definition res_json (j : Json) : Response := res_status_json 200 j.

Definition user_or_null (u : option User) : Json :=
  match u with
  | Some d => JUser d
  | None => JNull
  end.

Definition movie_or_null (m : option Movie) : Json :=
  match m with
  | Some d => JMovie d
  | None => JNull
  end.

(** ** The data access layer *)

(** The update documents the handlers send. *)
Inductive Update : Type :=
| set_fields (Username' Password' Email' Birthday' : option string)
| push_FavoriteMovies (id : string)
| pull_FavoriteMovies (id : string).

Inductive MovieFilter : Type :=
| by_Title (t : string)
| by_Genre_Name (n : string)
| by_Director_Name (n : string).

(** A query, indexed by the type of the value its promise resolves to. *)
Inductive Query : Type -> Type :=
| Users_findOne (username : option string) : Query (option User)
| Users_find : Query (list User)
| Users_create (Username' Password' Email' Birthday' : option string) : Query User
| Users_findOneAndUpdate (username : option string) (u : Update) : Query (option User)
| Users_findOneAndRemove (username : option string) : Query (option User)
| Movies_find : Query (list Movie)
| Movies_findOne (f : MovieFilter) : Query (option Movie).

Inductive Issued : Type :=
| issued (X : Type) (q : Query X).

Module Collection.

(** The first document that satisfies the filter. *)
Fixpoint findOne (A : Type) (p : A -> bool) (l : list A) : option A :=
  match l with
  | [] => None
  | x :: r => if p x then Some x else findOne p r
  end.

(** Rewrites the first document that satisfies the filter. *)
Fixpoint updateOne (A : Type) (p : A -> bool) (f : A -> A) (l : list A) : list A :=
  match l with
  | [] => []
  | x :: r => if p x then f x :: r else x :: updateOne p f r
  end.

(** Removes the first document that satisfies the filter. *)
Fixpoint removeOne (A : Type) (p : A -> bool) (l : list A) : list A :=
  match l with
  | [] => []
  | x :: r => if p x then r else x :: removeOne p r
  end.

End Collection.

(** The filter [{ Username: v }]. *)
Definition has_Username (v : option string) (u : User) : bool :=
  strict_eq (Username u) v.

Definition movie_matches (f : MovieFilter) (m : Movie) : bool :=
  match f with
  | by_Title t => Title m =? t
  | by_Genre_Name n => Name (Genre m) =? n
  | by_Director_Name n => Name (Director m) =? n
  end.

(** [$pull]: every element equal to [id] goes. *)
Definition pull (id : string) (l : list string) : list string :=
  filter (fun x => negb (x =? id)) l.

(** What an update document does to the document it rewrites, when the
    ODM sends a [$set] key whose value is [undefined] and the key is stored
    as [null] (Mongoose 5; [apply_update_on] below has the other reading);
    [$push] appends without looking for a duplicate. *)
Definition apply_update (up : Update) (u : User) : User :=
  match up with
  | set_fields n p e b => mkUser n p e b (FavoriteMovies u)
  | push_FavoriteMovies id =>
      mkUser (Username u) (Password u) (Email u) (Birthday u)
             (FavoriteMovies u ++ [id])
  | pull_FavoriteMovies id =>
      mkUser (Username u) (Password u) (Email u) (Birthday u)
             (pull id (FavoriteMovies u))
  end.

(** What a query answers on a store, and the store it leaves.
    [findOneAndUpdate] is called with [{ new: true }] throughout and
    answers the document as updated. *)
Definition perform (X : Type) (q : Query X) (s : Store) : X * Store :=
  match q in Query T return T * Store with
  | Users_findOne v => (Collection.findOne (has_Username v) (users s), s)
  | Users_find => (users s, s)
  | Users_create n p e b =>
      let doc := mkUser n p e b [] in
      (doc, mkStore (users s ++ [doc]) (movies s))
  | Users_findOneAndUpdate v up =>
      (option_map (apply_update up) (Collection.findOne (has_Username v) (users s)),
       mkStore (Collection.updateOne (has_Username v) (apply_update up) (users s))
               (movies s))
  | Users_findOneAndRemove v =>
      (Collection.findOne (has_Username v) (users s),
       mkStore (Collection.removeOne (has_Username v) (users s)) (movies s))
  | Movies_find => (movies s, s)
  | Movies_findOne f => (Collection.findOne (movie_matches f) (movies s), s)
  end.

(** ** Handler programs *)

(** A handler either answers, or issues a query and goes on with the
    settlement of its promise: rejected with an error or fulfilled with a
    value. *)
Inductive Prog (A : Type) : Type :=
| Ret (a : A)
| Call (X : Type) (q : Query X) (k : Error + X -> Prog A).

Arguments Ret {A} a.
Arguments Call {A X} q k.

(** [q.then(onFulfilled).catch(onRejected)]: [onRejected] also receives
    what [onFulfilled] throws. *)
Definition then_catch (A X : Type) (q : Query X)
    (onFulfilled : X -> Error + Prog A) (onRejected : Error -> Prog A) : Prog A :=
  Call q (fun r =>
    match r with
    | inl err => onRejected err
    | inr x =>
        match onFulfilled x with
        | inl err => onRejected err
        | inr p => p
        end
    end).

(** [q(..., (err, result) => ...)]: the node-style callback. *)
Definition callback (A X : Type) (q : Query X)
    (cb : option Error -> option X -> Prog A) : Prog A :=
  Call q (fun r =>
    match r with
    | inl err => cb (Some err) None
    | inr x => cb None (Some x)
    end).

(** Runs a program. [faults n] tells whether the [n]-th query issued is
    rejected by the storage layer, and with what; a rejected query leaves
    the store as it was. The log lists the queries issued, oldest first. *)
Fixpoint run (A : Type) (faults : nat -> option Error) (p : Prog A)
    (s : Store) (log : list Issued) : A * Store * list Issued :=
  match p with
  | Ret a => (a, s, log)
  | Call q k =>
      match faults (length log) with
      | Some err => run faults (k (inl err)) s (log ++ [issued q])
      | None =>
          let (x, s') := perform q s in
          run faults (k (inr x)) s' (log ++ [issued q])
      end
  end.

(** A storage layer that rejects nothing. *)
Definition reliable : nat -> option Error := fun _ => None.

(** ** CORS *)

Definition allowedOrigins : list string :=
  [ "http://localhost:8080"; "http://localhost:4200"; "http://testsite.com";
    "http://localhost:1234"; "https://at-myflix-app.netlify.app";
    "https://andrew0t.github.io" ].

(** The [origin] function handed to [cors]: the pair is what it passes to
    [callback], an error or [null], and the verdict. *)
Definition origin_callback (origin : option string) : option Error * bool :=
  if negb (truthy origin) then (None, true)
  else if (indexOf allowedOrigins origin =? -1)%Z then
    let message :=
      "The CORS policy for this application doesn’t allow access from origin "
      ++ String_of origin in
    (Some (mkError "Error" message), false)
  else (None, true).

(** ** Validation of [POST /users] (express-validator) *)

Module Validator.

(** A field is read as a string; an absent one reads as the empty
    string. *)
Definition toString (v : option string) : string :=
  match v with
  | Some s => s
  | None => ""
  end.

(** A byte that continues a character of several bytes. *)
Definition continuation (c : ascii) : bool :=
  let n := nat_of_ascii c in
  ((128 <=? n) && (n <=? 191))%nat.

(** The characters (code points) of a string. *)
Fixpoint code_points (s : string) : nat :=
  match s with
  | EmptyString => 0
  | String c r => (if continuation c then 0 else 1) + code_points r
  end.

(** The variation selectors U+FE0E and U+FE0F, which are the bytes
    EF B8 8E and EF B8 8F. *)
Fixpoint variation_selectors (s : string) : nat :=
  match s with
  | EmptyString => 0
  | String a r =>
      match r with
      | String b (String c _) =>
          if ((nat_of_ascii a =? 239) && (nat_of_ascii b =? 184)
              && ((nat_of_ascii c =? 142) || (nat_of_ascii c =? 143)))%nat
          then 1 else 0
      | _ => 0
      end + variation_selectors r
  end.

(** What [isLength] counts: [str.length] less one for each surrogate pair,
    that is the characters, and less one for each variation selector. *)
Definition characters (s : string) : nat :=
  code_points s - variation_selectors s.

Definition isLength_min (min : nat) (s : string) : bool :=
  (min <=? characters s)%nat.

Definition alphanumeric (c : ascii) : bool :=
  let n := nat_of_ascii c in
  (((48 <=? n) && (n <=? 57)) || ((65 <=? n) && (n <=? 90))
   || ((97 <=? n) && (n <=? 122)))%nat.

Fixpoint every (p : ascii -> bool) (s : string) : bool :=
  match s with
  | EmptyString => true
  | String c r => p c && every p r
  end.

(** [/^[0-9A-Z]+$/i]: one character at least, all of them letters or
    digits. *)
Definition isAlphanumeric (s : string) : bool :=
  negb (s =? "") && every alphanumeric s.

Definition isEmpty (s : string) : bool :=
  (String.length s =? 0)%nat.

End Validator.

(** The top-level error-handling middleware, which Express calls with
    whatever a handler throws synchronously. *)
Definition errorHandler (err : Error) : Response :=
  res_status_send 500 "There was an error. Please try again.".

Section Routes.

(** [Users.hashPassword] of [models.js]: a digest, or the error it
    throws. *)
Variable hashPassword : option string -> Error + string.

(** The JWT strategy of [passport.js], as a verdict on the
    [Authorization] header. *)
Variable verifyToken : option string -> bool.

(** [isEmail] of validator.js. *)
Variable isEmail : string -> bool.

(** [passport.authenticate('jwt', { session: false })]. *)
Definition passport_authenticate (req : Request) (next : Prog Response)
    : Prog Response :=
  if verifyToken (authorization req) then next
  else Ret (res_status_send 401 "Unauthorized").

(** One validator of a chain on the field of the body: the error it
    contributes, if any. *)
Definition check (field : string) (message : string) (v : option string)
    (ok : string -> bool) : list ValidationError :=
  if ok (Validator.toString v) then []
  else [mkValidationError v message field "body"].

(** [validationResult(req).array()] for a request that carries Username,
    Password and Email in its body and nowhere else;
    [validationResult_of] below reads every place [check] reads. *)
Definition validationResult (req : Request) : list ValidationError :=
  check "Username" "Username is required" (bUsername (body req))
        (Validator.isLength_min 5)
  ++ check "Username"
        "Username contains non alphanumeric characters - not allowed."
        (bUsername (body req)) Validator.isAlphanumeric
  ++ check "Password" "Password is required" (bPassword (body req))
        (fun s => negb (Validator.isEmpty s))
  ++ check "Email" "Email does not appear to be valid" (bEmail (body req))
        isEmail.

Definition isEmpty (errors : list ValidationError) : bool :=
  match errors with
  | [] => true
  | _ :: _ => false
  end.

(** [POST /users] *)
Definition createUser (req : Request) : Prog Response :=
  let errors := validationResult req in
  if negb (isEmpty errors) then
    Ret (res_status_json 422 (JErrors errors))
  else
    match hashPassword (bPassword (body req)) with
    | inl thrown => Ret (errorHandler thrown)
    | inr hashedPassword =>
        then_catch (Users_findOne (bUsername (body req)))
          (fun user =>
             match user with
             | Some _ =>
                 inr (Ret (res_status_send 400
                        (String_of (bUsername (body req)) ++ " already exists")))
             | None =>
                 inr (then_catch
                        (Users_create (bUsername (body req))
                                      (Some hashedPassword)
                                      (bEmail (body req))
                                      (bBirthday (body req)))
                        (fun user => inr (Ret (res_status_json 201 (JUser user))))
                        (fun error =>
                           Ret (res_status_send 500
                                  ("Error: " ++ Error_toString error))))
             end)
          (fun error =>
             Ret (res_status_send 500 ("Error: " ++ Error_toString error)))
    end.

(** [GET /users] *)
Definition getUsers (req : Request) : Prog Response :=
  passport_authenticate req
    (then_catch Users_find
       (fun users => inr (Ret (res_status_json 201 (JUsers users))))
       (fun err => Ret (res_status_send 500 ("error:" ++ Error_toString err)))).

(** [GET /users/:Username] *)
Definition getUser (req : Request) : Prog Response :=
  passport_authenticate req
    (then_catch (Users_findOne (Some (pUsername (params req))))
       (fun user => inr (Ret (res_json (user_or_null user))))
       (fun err => Ret (res_status_send 500 ("Error: " ++ Error_toString err)))).

(** [GET /movies] *)
Definition getMovies (req : Request) : Prog Response :=
  passport_authenticate req
    (then_catch Movies_find
       (fun movies => inr (Ret (res_status_json 201 (JMovies movies))))
       (fun err => Ret (res_status_send 500 ("Error: " ++ Error_toString err)))).

(** [GET /movies/:Title] *)
Definition getMovie (req : Request) : Prog Response :=
  passport_authenticate req
    (then_catch (Movies_findOne (by_Title (pTitle (params req))))
       (fun movie => inr (Ret (res_json (movie_or_null movie))))
       (fun err => Ret (res_status_send 500 ("Error: " ++ Error_toString err)))).

(** [GET /movies/genres/:Name]: reading [movie.Genre] throws when
    [movie] is [null] (the message is the one of current V8), and the
    [catch] of the chain receives the error. *)
Definition getGenre (req : Request) : Prog Response :=
  passport_authenticate req
    (then_catch (Movies_findOne (by_Genre_Name (pName (params req))))
       (fun movie =>
          match movie with
          | Some m => inr (Ret (res_json (JSubDoc (Genre m))))
          | None =>
              inl (TypeError "Cannot read properties of null (reading 'Genre')")
          end)
       (fun err => Ret (res_status_send 500 ("Error: " ++ Error_toString err)))).

(** [GET /movies/directors/:Name] *)
Definition getDirector (req : Request) : Prog Response :=
  passport_authenticate req
    (then_catch (Movies_findOne (by_Director_Name (pName (params req))))
       (fun movie =>
          match movie with
          | Some m => inr (Ret (res_json (JSubDoc (Director m))))
          | None =>
              inl (TypeError "Cannot read properties of null (reading 'Director')")
          end)
       (fun err => Ret (res_status_send 500 ("Error: " ++ Error_toString err)))).

(** The callback shared by the three [findOneAndUpdate] calls. *)
Definition updated (err : option Error) (updatedUser : option (option User))
    : Prog Response :=
  match err with
  | Some e => Ret (res_status_send 500 ("Error:" ++ Error_toString e))
  | None =>
      Ret (res_json (user_or_null
                       (match updatedUser with
                        | Some u => u
                        | None => None
                        end)))
  end.

(** [PUT /users/:Username] *)
Definition updateUser (req : Request) : Prog Response :=
  passport_authenticate req
    (match hashPassword (bPassword (body req)) with
     | inl thrown => Ret (errorHandler thrown)
     | inr hashedPassword =>
         callback
           (Users_findOneAndUpdate (Some (pUsername (params req)))
              (set_fields (bUsername (body req)) (Some hashedPassword)
                          (bEmail (body req)) (bBirthday (body req))))
           updated
     end).

(** [POST /users/:Username/movies/:MovieID] *)
Definition addFavoriteMovie (req : Request) : Prog Response :=
  passport_authenticate req
    (callback
       (Users_findOneAndUpdate (Some (pUsername (params req)))
          (push_FavoriteMovies (pMovieID (params req))))
       updated).

(** [DELETE /users/:Username/movies/:MovieID] *)
Definition removeFavoriteMovie (req : Request) : Prog Response :=
  passport_authenticate req
    (callback
       (Users_findOneAndUpdate (Some (pUsername (params req)))
          (pull_FavoriteMovies (pMovieID (params req))))
       updated).

(** [DELETE /users/:Username] *)
Definition deleteUser (req : Request) : Prog Response :=
  passport_authenticate req
    (then_catch (Users_findOneAndRemove (Some (pUsername (params req))))
       (fun user =>
          match user with
          | None =>
              inr (Ret (res_status_send 400
                          (pUsername (params req) ++ " was not found.")))
          | Some _ =>
              inr (Ret (res_status_send 200
                          (pUsername (params req) ++ " was deleted.")))
          end)
       (fun err => Ret (res_status_send 500 ("Error: " ++ Error_toString err)))).

End Routes.

(** ** The application *)

(** The routes registered on [app], in the order of the file.
    [GET /documentation], which serves a static file, is left out. *)
Inductive Endpoint : Type :=
| GET_root
| POST_users
| GET_users
| GET_users_Username
| GET_movies
| GET_movies_Title
| GET_movies_genres_Name
| GET_movies_directors_Name
| PUT_users_Username
| POST_users_Username_movies_MovieID
| DELETE_users_Username_movies_MovieID
| DELETE_users_Username.

(** The routes that go through [passport.authenticate]. *)
Definition protected (e : Endpoint) : bool :=
  match e with
  | GET_root | POST_users => false
  | _ => true
  end.

(** The routes registered with [app.get]. *)
Definition is_GET (e : Endpoint) : bool :=
  match e with
  | GET_root | GET_users | GET_users_Username | GET_movies | GET_movies_Title
  | GET_movies_genres_Name | GET_movies_directors_Name => true
  | _ => false
  end.

(** [GET /] *)
Definition welcome (req : Request) : Prog Response :=
  Ret (res_send "Welcome to myFlix App").

(** [app.use(cors({ origin }))], ahead of every route: [cors] calls the
    origin function with [req.headers.origin]; an error it reports goes to
    [next], that is to the error-handling middleware, and the request goes
    on to its route otherwise. *)
Definition cors (origin : option string) (next : Prog Response)
    : Prog Response :=
  match origin_callback origin with
  | (Some err, _) => Ret (errorHandler err)
  | (None, _) => next
  end.

Section App.

Variable hashPassword : option string -> Error + string.
Variable verifyToken : option string -> bool.
Variable isEmail : string -> bool.

(** The handler each route registers. *)
Definition handler (e : Endpoint) (req : Request) : Prog Response :=
  match e with
  | GET_root => welcome req
  | POST_users => createUser hashPassword isEmail req
  | GET_users => getUsers verifyToken req
  | GET_users_Username => getUser verifyToken req
  | GET_movies => getMovies verifyToken req
  | GET_movies_Title => getMovie verifyToken req
  | GET_movies_genres_Name => getGenre verifyToken req
  | GET_movies_directors_Name => getDirector verifyToken req
  | PUT_users_Username => updateUser hashPassword verifyToken req
  | POST_users_Username_movies_MovieID => addFavoriteMovie verifyToken req
  | DELETE_users_Username_movies_MovieID => removeFavoriteMovie verifyToken req
  | DELETE_users_Username => deleteUser verifyToken req
  end.

(** A request with its [Origin] header, through the CORS check and then
    its route. *)
Definition app (origin : option string) (e : Endpoint) (req : Request)
    : Prog Response :=
  cors origin (handler e req).

End App.

(** ** [POST /users] on any request *)

(** What a request carries of Username, Password and Email outside its
    body, in the places [check] looks a field up besides [req.body]:
    [req.headers], under the lower-case name, and [req.query].
    [req.cookies] is never set, no cookie parser being installed, and
    [req.params] is empty on [/users]. *)
Record Elsewhere : Type := mkElsewhere {
  hUsername : option string;
  hPassword : option string;
  hEmail : option string;
  qUsername : option string;
  qPassword : option string;
  qEmail : option string
}.

Definition nowhere : Elsewhere := mkElsewhere None None None None None None.

(** [String.prototype.toLowerCase] on the letters of ASCII. *)
Definition toLowerCase_char (c : ascii) : ascii :=
  let n := nat_of_ascii c in
  if ((65 <=? n) && (n <=? 90))%nat then ascii_of_nat (n + 32) else c.

Fixpoint toLowerCase (s : string) : string :=
  match s with
  | EmptyString => EmptyString
  | String c r => String (toLowerCase_char c) (toLowerCase r)
  end.

(** A field as found in one location of the request. *)
Record Instance : Type := mkInstance {
  iLocation : string;
  iPath : string;
  iValue : option string
}.

(** One instance for each location, in the order [check] lists them. *)
Definition selectFields (field : string) (inBody inHeaders inQuery : option string)
    : list Instance :=
  [ mkInstance "body" field inBody;
    mkInstance "cookies" field None;
    mkInstance "headers" (toLowerCase field) inHeaders;
    mkInstance "params" field None;
    mkInstance "query" field inQuery ].

Definition has_value (i : Instance) : bool :=
  match iValue i with
  | Some _ => true
  | None => false
  end.

(** The instances that are validated: those with a value, all of which
    must pass; the first instance when no location has the field. *)
Definition getData (instances : list Instance) : list Instance :=
  match filter has_value instances with
  | [] => firstn 1 instances
  | withValue => withValue
  end.

(** One validator run on the instances of its chain. *)
Definition validate (message : string) (ok : string -> bool)
    (instances : list Instance) : list ValidationError :=
  flat_map
    (fun i =>
       if ok (Validator.toString (iValue i)) then []
       else [mkValidationError (iValue i) message (iPath i) (iLocation i)])
    instances.

Section Registration.

Variable hashPassword : option string -> Error + string.
Variable isEmail : string -> bool.

(** [validationResult(req).array()], the four chains in their order. *)
Definition validationResult_of (e : Elsewhere) (req : Request)
    : list ValidationError :=
  let username :=
    getData (selectFields "Username" (bUsername (body req)) (hUsername e)
               (qUsername e)) in
  let password :=
    getData (selectFields "Password" (bPassword (body req)) (hPassword e)
               (qPassword e)) in
  let email :=
    getData (selectFields "Email" (bEmail (body req)) (hEmail e) (qEmail e)) in
  validate "Username is required" (Validator.isLength_min 5) username
  ++ validate "Username contains non alphanumeric characters - not allowed."
       Validator.isAlphanumeric username
  ++ validate "Password is required" (fun s => negb (Validator.isEmpty s))
       password
  ++ validate "Email does not appear to be valid" isEmail email.

(** The handler of [POST /users] once [errors] is known: it reads the
    body alone. *)
Definition createUser_after (errors : list ValidationError) (req : Request)
    : Prog Response :=
  if negb (isEmpty errors) then
    Ret (res_status_json 422 (JErrors errors))
  else
    match hashPassword (bPassword (body req)) with
    | inl thrown => Ret (errorHandler thrown)
    | inr hashedPassword =>
        then_catch (Users_findOne (bUsername (body req)))
          (fun user =>
             match user with
             | Some _ =>
                 inr (Ret (res_status_send 400
                        (String_of (bUsername (body req)) ++ " already exists")))
             | None =>
                 inr (then_catch
                        (Users_create (bUsername (body req))
                                      (Some hashedPassword)
                                      (bEmail (body req))
                                      (bBirthday (body req)))
                        (fun user => inr (Ret (res_status_json 201 (JUser user))))
                        (fun error =>
                           Ret (res_status_send 500
                                  ("Error: " ++ Error_toString error))))
             end)
          (fun error =>
             Ret (res_status_send 500 ("Error: " ++ Error_toString error)))
    end.

(** [POST /users] on a request that may carry the fields elsewhere. *)
Definition createUser_anywhere (e : Elsewhere) (req : Request)
    : Prog Response :=
  createUser_after (validationResult_of e req) req.

End Registration.

(** ** [$set] and [undefined] *)

(** What the ODM does with a [$set] key whose value is [undefined]:
    Mongoose 5 sends it and the key is stored as [null]; Mongoose 6 strips
    the key and the stored value stays. *)
Inductive UndefinedKeys : Type :=
| stored_as_null
| stripped.

Definition set_key (w : UndefinedKeys) (sent stored : option string)
    : option string :=
  match sent with
  | Some v => Some v
  | None =>
      match w with
      | stored_as_null => None
      | stripped => stored
      end
  end.

Definition apply_update_on (w : UndefinedKeys) (up : Update) (u : User)
    : User :=
  match up with
  | set_fields n p e b =>
      mkUser (set_key w n (Username u)) (set_key w p (Password u))
             (set_key w e (Email u)) (set_key w b (Birthday u))
             (FavoriteMovies u)
  | push_FavoriteMovies _ | pull_FavoriteMovies _ => apply_update up u
  end.

Definition perform_on (w : UndefinedKeys) (X : Type) (q : Query X) (s : Store)
    : X * Store :=
  match q in Query T return T * Store with
  | Users_findOneAndUpdate v up =>
      (option_map (apply_update_on w up)
         (Collection.findOne (has_Username v) (users s)),
       mkStore (Collection.updateOne (has_Username v) (apply_update_on w up)
                  (users s))
               (movies s))
  | Users_findOne v => perform (Users_findOne v) s
  | Users_find => perform Users_find s
  | Users_create n p e b => perform (Users_create n p e b) s
  | Users_findOneAndRemove v => perform (Users_findOneAndRemove v) s
  | Movies_find => perform Movies_find s
  | Movies_findOne f => perform (Movies_findOne f) s
  end.

(** [run], the ODM being one or the other. *)
Fixpoint run_on (w : UndefinedKeys) (A : Type) (faults : nat -> option Error)
    (p : Prog A) (s : Store) (log : list Issued) : A * Store * list Issued :=
  match p with
  | Ret a => (a, s, log)
  | Call q k =>
      match faults (length log) with
      | Some err => run_on w faults (k (inl err)) s (log ++ [issued q])
      | None =>
          let (x, s') := perform_on w q s in
          run_on w faults (k (inr x)) s' (log ++ [issued q])
      end
  end.

(** ** Stand-ins for the parameters, to run the handlers on examples *)

Module Fixture.

(** A digest that is not the plaintext; an absent password is an
    error. *)
Definition hashPassword (p : option string) : Error + string :=
  match p with
  | Some s => inr ("$2b$10$" ++ s)
  | None => inl (mkError "Error" "Illegal arguments: undefined, number")
  end.

Definition verifyToken (h : option string) : bool :=
  strict_eq h (Some "Bearer good").

Fixpoint has_at (s : string) : bool :=
  match s with
  | EmptyString => false
  | String c r => (c =? "@")%char || has_at r
  end.

Definition isEmail (s : string) : bool := has_at s.

Definition alice : User :=
  mkUser (Some "alice1") (Some "$2b$10$secret") (Some "alice@example.com")
         (Some "1990-01-01") ["5c3bd189515a081b363cb7e4"].

Definition bobby : User :=
  mkUser (Some "bobby7") (Some "$2b$10$hunter2") (Some "bob@example.com")
         None [].

Definition silence : Movie :=
  mkMovie "5c3bd189515a081b363cb7e4" "Silence of the Lambs"
          (mkSubDoc "Thriller" "Suspense and tension")
          (mkSubDoc "Jonathan Demme" "American director").

Definition store : Store := mkStore [alice; bobby] [silence].

Definition no_body : Body := mkBody None None None None.

Definition request (user movie genre : string) (b : Body) : Request :=
  mkRequest (Some "Bearer good") (mkParams user movie "" genre) b.

End Fixture.

(** ** Vocabulary of the properties *)

(** The origin is one of the allow-list. *)
Definition listed (origin : option string) : Prop :=
  exists o, origin = Some o /\ In o allowedOrigins.

(** The character occurs in the string. *)
Definition occurs (c : ascii) (s : string) : Prop :=
  In c (list_ascii_of_string s).

(** The messages of a validation result. *)
Definition messages (errors : list ValidationError) : list string :=
  map msg errors.

(** A registration body as the specification wants it: a Username of five
    characters at least, all letters or digits, a Password that is not
    empty and an Email that is well formed. *)
Definition valid_registration (isEmail : string -> bool) (b : Body) : Prop :=
  5 <= String.length (Validator.toString (bUsername b))
  /\ (forall c, occurs c (Validator.toString (bUsername b)) ->
              Validator.alphanumeric c = true)
  /\ Validator.toString (bPassword b) <> ""
  /\ isEmail (Validator.toString (bEmail b)) = true.

(** The status of the answer of a run. *)
Definition status_of (r : Response * Store * list Issued) : nat :=
  status (fst (fst r)).

(** The answer, the store and the log of a run. *)
Definition answer_of (r : Response * Store * list Issued) : Response :=
  fst (fst r).
Definition store_of (r : Response * Store * list Issued) : Store :=
  snd (fst r).
Definition log_of (r : Response * Store * list Issued) : list Issued :=
  snd r.

(** The Usernames of the stored users, and their being pairwise
    distinct. *)
Definition usernames (s : Store) : list (option string) :=
  map Username (users s).
Definition unique_usernames (s : Store) : Prop :=
  NoDup (usernames s).

(** The document with its favorites replaced. *)
Definition with_FavoriteMovies (u : User) (l : list string) : User :=
  mkUser (Username u) (Password u) (Email u) (Birthday u) l.

(** The store after [POST /users/:Username/movies/:MovieID] and then
    [DELETE /users/:Username/movies/:MovieID], one request sent to both
    routes, on a storage layer that rejects nothing. *)
Definition push_then_pull (verifyToken : option string -> bool)
    (req : Request) (s : Store) : Store :=
  let '(_, s1, _) := run reliable (addFavoriteMovie verifyToken req) s [] in
  let '(_, s2, _) := run reliable (removeFavoriteMovie verifyToken req) s1 [] in
  s2.

Ltac enter_route :=
  unfold getUsers, getMovies, getGenre, deleteUser, addFavoriteMovie,
    removeFavoriteMovie, updateUser, createUser, passport_authenticate,
    then_catch, callback, updated.

(** The statuses each route sets, as read from its handler (401 is the
    one of [passport.authenticate], the 500 of [POST /users] and of
    [PUT /users/:Username] is also the one of the error middleware). *)
Definition statuses (e : Endpoint) : list nat :=
  match e with
  | GET_root => [200]
  | POST_users => [201; 400; 422; 500]
  | GET_users | GET_movies => [201; 401; 500]
  | DELETE_users_Username => [200; 400; 401; 500]
  | _ => [200; 401; 500]
  end.

(** The number of queries a route sends at most. *)
Definition query_budget (e : Endpoint) : nat :=
  match e with
  | GET_root => 0
  | POST_users => 2
  | _ => 1
  end.

(** A storage layer that rejects the first query it receives and no
    other. *)
Definition first_query_fails (err : Error) : nat -> option Error :=
  fun n =>
    match n with
    | 0 => Some err
    | S _ => None
    end.

(** The text each route puts before the error of a rejected query. *)
Definition error_prefix (e : Endpoint) : string :=
  match e with
  | GET_users => "error:"
  | PUT_users_Username | POST_users_Username_movies_MovieID
  | DELETE_users_Username_movies_MovieID => "Error:"
  | _ => "Error: "
  end.

(** A value that is checked for a field: one the request supplies, in its
    body, a header or the query string, or the empty string when it
    supplies none. *)
Definition reads (inBody inHeaders inQuery : option string) (v : string)
    : Prop :=
  inBody = Some v \/ inHeaders = Some v \/ inQuery = Some v
  \/ (inBody = None /\ inHeaders = None /\ inQuery = None /\ v = "").

(** Every value checked passes its checks. *)
Definition accepted_submission (isEmail : string -> bool) (e : Elsewhere)
    (req : Request) : Prop :=
  (forall v, reads (bUsername (body req)) (hUsername e) (qUsername e) v ->
     5 <= Validator.characters v
     /\ (forall c, occurs c v -> Validator.alphanumeric c = true))
  /\ (forall v, reads (bPassword (body req)) (hPassword e) (qPassword e) v ->
        v <> "")
  /\ (forall v, reads (bEmail (body req)) (hEmail e) (qEmail e) v ->
        isEmail v = true).

Ltac enter_any :=
  unfold app, cors, handler, welcome, getUser, getMovie, getDirector;
  enter_route.

(** * Properties *)

(** ** Collections *)

Section CollectionFacts.

Variable A : Type.
Variable p : A -> bool.

Lemma findOne_none (l : list A) :
  (forall x, In x l -> p x = false) -> Collection.findOne p l = None.
Proof.
  induction l as [|x r IH]; intros H; simpl; [reflexivity|].
  rewrite (H x (or_introl eq_refl)). apply IH.
  intros y Hy. apply H. now right.
Qed.

Lemma findOne_first (pre post : list A) (x : A) :
  (forall y, In y pre -> p y = false) -> p x = true ->
  Collection.findOne p (pre ++ x :: post)%list = Some x.
Proof.
  induction pre as [|y r IH]; intros Hpre Hx; simpl.
  - now rewrite Hx.
  - rewrite (Hpre y (or_introl eq_refl)). apply IH; [|exact Hx].
    intros z Hz. apply Hpre. now right.
Qed.

Lemma updateOne_none (f : A -> A) (l : list A) :
  (forall x, In x l -> p x = false) -> Collection.updateOne p f l = l.
Proof.
  induction l as [|x r IH]; intros H; simpl; [reflexivity|].
  rewrite (H x (or_introl eq_refl)). f_equal. apply IH.
  intros y Hy. apply H. now right.
Qed.

Lemma updateOne_first (f : A -> A) (pre post : list A) (x : A) :
  (forall y, In y pre -> p y = false) -> p x = true ->
  Collection.updateOne p f (pre ++ x :: post)%list = (pre ++ f x :: post)%list.
Proof.
  induction pre as [|y r IH]; intros Hpre Hx; simpl.
  - now rewrite Hx.
  - rewrite (Hpre y (or_introl eq_refl)). f_equal. apply IH; [|exact Hx].
    intros z Hz. apply Hpre. now right.
Qed.

Lemma removeOne_none (l : list A) :
  (forall x, In x l -> p x = false) -> Collection.removeOne p l = l.
Proof.
  induction l as [|x r IH]; intros H; simpl; [reflexivity|].
  rewrite (H x (or_introl eq_refl)). f_equal. apply IH.
  intros y Hy. apply H. now right.
Qed.

Lemma removeOne_first (pre post : list A) (x : A) :
  (forall y, In y pre -> p y = false) -> p x = true ->
  Collection.removeOne p (pre ++ x :: post)%list = (pre ++ post)%list.
Proof.
  induction pre as [|y r IH]; intros Hpre Hx; simpl.
  - now rewrite Hx.
  - rewrite (Hpre y (or_introl eq_refl)). f_equal. apply IH; [|exact Hx].
    intros z Hz. apply Hpre. now right.
Qed.

End CollectionFacts.

Lemma strict_eq_spec (a b : option string) : strict_eq a b = true <-> a = b.
Proof.
  destruct a as [x|], b as [y|]; simpl; try (split; congruence).
  rewrite String.eqb_eq. split; congruence.
Qed.

Lemma has_Username_false (v : option string) (u : User) :
  Username u <> v -> has_Username v u = false.
Proof.
  intros H. unfold has_Username.
  destruct (strict_eq (Username u) v) eqn:E; [|reflexivity].
  now apply strict_eq_spec in E.
Qed.

Lemma has_Username_true (v : option string) (u : User) :
  Username u = v -> has_Username v u = true.
Proof. intros H. now apply strict_eq_spec. Qed.

Lemma store_eta (s : Store) : mkStore (users s) (movies s) = s.
Proof. now destruct s. Qed.

(** ** CORS *)

Lemma indexOf_absent (l : list string) (o : string) :
  indexOf l (Some o) = (-1)%Z <-> ~ In o l.
Proof.
  unfold indexOf.
  cut (forall i, (0 <= i)%Z -> indexOf_from i l (Some o) = (-1)%Z <-> ~ In o l).
  { intros H. apply H. lia. }
  induction l as [|y r IH]; intros i Hi; simpl.
  - tauto.
  - destruct (String.eqb_spec y o) as [->|Hne].
    + split; [lia | intros H; exfalso; apply H; now left].
    + rewrite (IH (i + 1)%Z ltac:(lia)). tauto.
Qed.

(** C8, as stated, fails: a request whose [Origin] header is present and
    empty carries an origin that is not in the allow-list, and the check
    accepts it all the same, [!origin] being true of the empty string. *)
Lemma cors_empty_origin_accepted :
  Some "" <> None
  /\ ~ listed (Some "")
  /\ origin_callback (Some "") = (None, true).
Proof.
  split; [discriminate|]. split; [|reflexivity].
  intros [o [Ho Hin]]. injection Ho as <-.
  simpl in Hin. repeat (destruct Hin as [Hin|Hin]; [discriminate|]). exact Hin.
Qed.

(** C8 (amended): the CORS check accepts a request exactly when its
    [Origin] header is absent or empty or names an origin of the
    allow-list; every other origin is rejected with an error whose message
    names the origin. *)
Theorem cors_origin_verdict (origin : option string) :
  (origin_callback origin = (None, true)
   <-> origin = None \/ origin = Some "" \/ listed origin)
  /\ (~ (origin = None \/ origin = Some "" \/ listed origin) ->
      exists o, origin = Some o
        /\ origin_callback origin =
           (Some (mkError "Error"
              ("The CORS policy for this application doesn’t allow access from origin "
               ++ o)), false)).
Proof.
  unfold origin_callback, listed.
  destruct origin as [o|]; simpl.
  2:{ split; [tauto|]. intros H. exfalso. apply H. now left. }
  destruct (String.eqb_spec o "") as [->|Hne]; simpl.
  { split; [tauto|]. intros H. exfalso. apply H. right. now left. }
  destruct (Z.eqb_spec (indexOf allowedOrigins (Some o)) (-1)) as [Habs|Hpres].
  - apply indexOf_absent in Habs. split.
    + split; [discriminate|].
      intros [H|[H|[o' [Ho' Hin]]]]; try discriminate; try congruence.
      injection Ho' as <-. contradiction.
    + intros _. exists o. split; reflexivity.
  - assert (Hin : In o allowedOrigins).
    { destruct (in_dec string_dec o allowedOrigins) as [Hin|Hout]; [exact Hin|].
      exfalso. apply Hpres. now apply indexOf_absent. }
    split.
    + split; [|reflexivity]. intros _. right. right. now exists o.
    + intros H. exfalso. apply H. right. right. now exists o.
Qed.

(** ** Favorites *)

Lemma pull_snoc (id : string) (l : list string) :
  pull id (l ++ [id]) = pull id l.
Proof.
  unfold pull. rewrite filter_app. simpl. rewrite String.eqb_refl. simpl.
  apply app_nil_r.
Qed.

Lemma pull_fixed (id : string) (l : list string) :
  pull id l = l <-> ~ In id l.
Proof.
  unfold pull. induction l as [|x r IH]; simpl.
  - tauto.
  - destruct (String.eqb_spec x id) as [->|Hne]; simpl.
    + split; [|intros H; exfalso; apply H; now left].
      intros H. exfalso.
      pose proof (filter_length_le (fun x => negb (x =? id)) r) as Hle.
      rewrite H in Hle. simpl in Hle. lia.
    + split.
      * intros H. injection H as H. apply IH in H. intros [E|E]; congruence.
      * intros H. f_equal. apply IH. tauto.
Qed.

(** ** Validators *)


Lemma every_true (p : ascii -> bool) (s : string) :
  Validator.every p s = true <-> (forall c, occurs c s -> p c = true).
Proof.
  unfold occurs. induction s as [|d r IH]; simpl.
  - split; [intros _ c [] | reflexivity].
  - rewrite andb_true_iff, IH. split.
    + intros [Hd Hr] c [<-|Hc]; [exact Hd | now apply Hr].
    + intros H. split; [apply H; now left | intros c Hc; apply H; now right].
Qed.

Lemma check_fails (field message : string) (v : option string)
    (ok : string -> bool) :
  ok (Validator.toString v) = false ->
  In message (messages (check field message v ok)).
Proof. intros H. unfold check. rewrite H. now left. Qed.

Lemma check_passes (field message : string) (v : option string)
    (ok : string -> bool) :
  check field message v ok = [] -> ok (Validator.toString v) = true.
Proof.
  unfold check. destruct (ok (Validator.toString v)); [reflexivity|discriminate].
Qed.

Lemma app_is_nil (A : Type) (l l' : list A) :
  (l ++ l')%list = [] <-> l = [] /\ l' = [].
Proof.
  split; [apply app_eq_nil|]. now intros [-> ->].
Qed.

Lemma check_empty (field message : string) (v : option string)
    (ok : string -> bool) :
  check field message v ok = [] <-> ok (Validator.toString v) = true.
Proof.
  split; [apply check_passes|].
  intros H. unfold check. now rewrite H.
Qed.

Lemma alphanumeric_ascii (c : ascii) :
  Validator.alphanumeric c = true -> nat_of_ascii c <= 122.
Proof.
  unfold Validator.alphanumeric. cbv zeta.
  rewrite !orb_true_iff, !andb_true_iff, !Nat.leb_le. lia.
Qed.

(** In a string of letters and digits every byte is a character. *)
Lemma characters_alphanumeric (s : string) :
  Validator.every Validator.alphanumeric s = true ->
  Validator.characters s = String.length s.
Proof.
  intros Hall.
  assert (H : Validator.code_points s = String.length s
              /\ Validator.variation_selectors s = 0).
  { induction s as [|c r IH]; [split; reflexivity|].
    simpl in Hall. apply andb_true_iff in Hall as [Hc Hr].
    destruct (IH Hr) as [IHp IHv]. apply alphanumeric_ascii in Hc.
    split.
    - simpl. rewrite IHp. unfold Validator.continuation. cbv zeta.
      replace (128 <=? nat_of_ascii c)%nat with false; [reflexivity|].
      symmetry. apply Nat.leb_gt. lia.
    - simpl. rewrite IHv.
      replace (nat_of_ascii c =? 239)%nat with false.
      + destruct r as [|b [|d t]]; reflexivity.
      + symmetry. apply Nat.eqb_neq. lia. }
  unfold Validator.characters. destruct H as [-> ->]. lia.
Qed.

(** The four checks of [POST /users] find nothing exactly on the bodies
    the specification calls valid. *)
Lemma validationResult_empty_iff (isEmail : string -> bool) (req : Request) :
  validationResult isEmail req = [] <-> valid_registration isEmail (body req).
Proof.
  unfold validationResult, valid_registration.
  rewrite !app_is_nil, !check_empty.
  unfold Validator.isLength_min, Validator.isAlphanumeric, Validator.isEmpty.
  rewrite Nat.leb_le, andb_true_iff, !negb_true_iff, Nat.eqb_neq.
  set (username := Validator.toString (bUsername (body req))).
  set (password := Validator.toString (bPassword (body req))).
  assert (Hpw : String.length password <> 0 <-> password <> "").
  { destruct password; simpl; split; congruence. }
  rewrite Hpw. split.
  - intros (Hlen & (_ & Hall) & Hp & He).
    rewrite (characters_alphanumeric _ Hall) in Hlen.
    pose proof (proj1 (every_true _ _) Hall) as Hevery. auto.
  - intros (Hlen & Hall & Hp & He).
    pose proof (proj2 (every_true _ _) Hall) as Hevery.
    rewrite (characters_alphanumeric _ Hevery). repeat split; auto.
    apply String.eqb_neq. intros E. rewrite E in Hlen. simpl in Hlen. lia.
Qed.

(** ** Routes *)

Section RouteFacts.

Variable hashPassword : option string -> Error + string.
Variable verifyToken : option string -> bool.
Variable isEmail : string -> bool.

(** C7: an authenticated [GET /users], respectively [GET /movies], whose
    query the storage layer does not reject answers 201 with every
    document of the collection. *)
Theorem list_routes_answer_201 (faults : nat -> option Error) (s : Store)
    (req : Request) :
  verifyToken (authorization req) = true ->
  faults 0 = None ->
  run faults (getUsers verifyToken req) s []
    = (mkResponse 201 (JsonBody (JUsers (users s))), s, [issued Users_find])
  /\ run faults (getMovies verifyToken req) s []
    = (mkResponse 201 (JsonBody (JMovies (movies s))), s, [issued Movies_find]).
Proof.
  intros Hauth Hok. enter_route. rewrite Hauth. simpl. rewrite Hok.
  split; reflexivity.
Qed.

(** C9: with no user of that Username, adding or removing a favorite
    answers 200 with a [null] body and leaves the store as it was; 200 is
    also the status when the user exists. *)
Theorem favorite_routes_absent_user (s : Store) (req : Request) :
  verifyToken (authorization req) = true ->
  (forall u, In u (users s) -> Username u <> Some (pUsername (params req))) ->
  run reliable (addFavoriteMovie verifyToken req) s []
    = (mkResponse 200 (JsonBody JNull), s,
       [issued (Users_findOneAndUpdate (Some (pUsername (params req)))
                  (push_FavoriteMovies (pMovieID (params req))))])
  /\ run reliable (removeFavoriteMovie verifyToken req) s []
    = (mkResponse 200 (JsonBody JNull), s,
       [issued (Users_findOneAndUpdate (Some (pUsername (params req)))
                  (pull_FavoriteMovies (pMovieID (params req))))])
  /\ (forall s' : Store,
        status_of (run reliable (addFavoriteMovie verifyToken req) s' []) = 200
        /\ status_of (run reliable (removeFavoriteMovie verifyToken req) s' [])
           = 200).
Proof.
  intros Hauth Habsent.
  assert (Hstatus : forall s' : Store,
            status_of (run reliable (addFavoriteMovie verifyToken req) s' []) = 200
            /\ status_of (run reliable (removeFavoriteMovie verifyToken req) s' [])
               = 200).
  { intros s'. enter_route. rewrite Hauth. split; reflexivity. }
  assert (Hno : forall u, In u (users s) ->
            has_Username (Some (pUsername (params req))) u = false).
  { intros u Hu. apply has_Username_false. now apply Habsent. }
  enter_route. rewrite Hauth. simpl.
  rewrite (findOne_none _ _ Hno), !(updateOne_none _ _ _ Hno), store_eta.
  repeat split; try reflexivity; apply Hstatus.
Qed.

(** C10: [PUT /users/:Username] hashes the password first; when the body
    has no Password and the hash throws on it, no query is issued and
    the store is unchanged (the error middleware answers 500). *)
Theorem updateUser_hash_failure (faults : nat -> option Error) (s : Store)
    (req : Request) (thrown : Error) :
  bPassword (body req) = None ->
  hashPassword None = inl thrown ->
  run faults (updateUser hashPassword verifyToken req) s []
    = (if verifyToken (authorization req)
       then mkResponse 500 (Text "There was an error. Please try again.")
       else mkResponse 401 (Text "Unauthorized"),
       s, []).
Proof.
  intros Hbody Hthrows. enter_route. rewrite Hbody, Hthrows.
  destruct (verifyToken (authorization req)); reflexivity.
Qed.

(** C5: [DELETE /users/:Username] answers 400 "was not found." when no
    user has that Username, and otherwise 200 "was deleted." after
    removing the first such user. *)
Theorem deleteUser_answers (s : Store) (req : Request) :
  verifyToken (authorization req) = true ->
  ((forall u, In u (users s) -> Username u <> Some (pUsername (params req))) ->
   run reliable (deleteUser verifyToken req) s []
     = (mkResponse 400 (Text (pUsername (params req) ++ " was not found.")),
        s,
        [issued (Users_findOneAndRemove (Some (pUsername (params req))))]))
  /\ (forall pre u post,
        users s = (pre ++ u :: post)%list ->
        (forall x, In x pre -> Username x <> Some (pUsername (params req))) ->
        Username u = Some (pUsername (params req)) ->
        run reliable (deleteUser verifyToken req) s []
          = (mkResponse 200 (Text (pUsername (params req) ++ " was deleted.")),
             mkStore (pre ++ post) (movies s),
             [issued (Users_findOneAndRemove (Some (pUsername (params req))))])).
Proof.
  intros Hauth. split.
  - intros Habsent.
    assert (Hno : forall u, In u (users s) ->
              has_Username (Some (pUsername (params req))) u = false).
    { intros u Hu. apply has_Username_false. now apply Habsent. }
    enter_route. rewrite Hauth. simpl.
    rewrite (findOne_none _ _ Hno), (removeOne_none _ _ Hno), store_eta.
    reflexivity.
  - intros pre u post Hsplit Hpre Hu.
    assert (Hno : forall x, In x pre ->
              has_Username (Some (pUsername (params req))) x = false).
    { intros x Hx. apply has_Username_false. now apply Hpre. }
    apply has_Username_true in Hu.
    enter_route. rewrite Hauth. simpl. rewrite Hsplit.
    rewrite (findOne_first _ _ post _ Hno Hu), (removeOne_first _ _ post _ Hno Hu).
    reflexivity.
Qed.

(** C6: [GET /movies/genres/:Name] answers with an error (500) when no
    movie has that genre name, never 200 with a null genre; otherwise it
    answers 200 with the Genre of the first movie that has it. *)
Theorem getGenre_answers (s : Store) (req : Request) :
  verifyToken (authorization req) = true ->
  ((forall m, In m (movies s) -> Name (Genre m) <> pName (params req)) ->
   run reliable (getGenre verifyToken req) s []
     = (mkResponse 500
          (Text "Error: TypeError: Cannot read properties of null (reading 'Genre')"),
        s,
        [issued (Movies_findOne (by_Genre_Name (pName (params req))))]))
  /\ (forall pre m post,
        movies s = (pre ++ m :: post)%list ->
        (forall x, In x pre -> Name (Genre x) <> pName (params req)) ->
        Name (Genre m) = pName (params req) ->
        run reliable (getGenre verifyToken req) s []
          = (mkResponse 200 (JsonBody (JSubDoc (Genre m))),
             s,
             [issued (Movies_findOne (by_Genre_Name (pName (params req))))])).
Proof.
  intros Hauth. split.
  - intros Habsent.
    assert (Hno : forall m, In m (movies s) ->
              movie_matches (by_Genre_Name (pName (params req))) m = false).
    { intros m Hm. simpl. apply String.eqb_neq. now apply Habsent. }
    enter_route. rewrite Hauth. simpl.
    rewrite (findOne_none _ _ Hno). reflexivity.
  - intros pre m post Hsplit Hpre Hm.
    assert (Hno : forall x, In x pre ->
              movie_matches (by_Genre_Name (pName (params req))) x = false).
    { intros x Hx. simpl. apply String.eqb_neq. now apply Hpre. }
    assert (Hyes : movie_matches (by_Genre_Name (pName (params req))) m = true).
    { simpl. now apply String.eqb_eq. }
    enter_route. rewrite Hauth. simpl. rewrite Hsplit.
    rewrite (findOne_first _ _ post _ Hno Hyes). reflexivity.
Qed.

(** C2: on a store where the Username is free, a valid registration is
    answered 201 and appends the user; a second valid registration with
    the same Username is then answered 400 "already exists" and creates
    nothing. *)
Theorem createUser_twice (s : Store) (req1 req2 : Request)
    (digest1 digest2 : string) :
  valid_registration isEmail (body req1) ->
  valid_registration isEmail (body req2) ->
  bUsername (body req2) = bUsername (body req1) ->
  hashPassword (bPassword (body req1)) = inr digest1 ->
  hashPassword (bPassword (body req2)) = inr digest2 ->
  (forall u, In u (users s) -> Username u <> bUsername (body req1)) ->
  let created :=
    mkUser (bUsername (body req1)) (Some digest1) (bEmail (body req1))
           (bBirthday (body req1)) [] in
  let s1 := mkStore (users s ++ [created]) (movies s) in
  exists username,
    bUsername (body req1) = Some username
    /\ run reliable (createUser hashPassword isEmail req1) s []
       = (mkResponse 201 (JsonBody (JUser created)), s1,
          [issued (Users_findOne (Some username));
           issued (Users_create (Some username) (Some digest1)
                     (bEmail (body req1)) (bBirthday (body req1)))])
    /\ run reliable (createUser hashPassword isEmail req2) s1 []
       = (mkResponse 400 (Text (username ++ " already exists")), s1,
          [issued (Users_findOne (Some username))]).
Proof.
  intros Hv1 Hv2 Hsame Hh1 Hh2 Hfree created s1.
  assert (Hname : exists username, bUsername (body req1) = Some username).
  { destruct Hv1 as [Hlen _].
    destruct (bUsername (body req1)) as [n|]; [now exists n | simpl in Hlen; lia]. }
  apply validationResult_empty_iff in Hv1, Hv2.
  destruct Hname as [username Hname]. exists username.
  split; [exact Hname|].
  assert (Hno : forall u, In u (users s) ->
            has_Username (bUsername (body req1)) u = false).
  { intros u Hu. apply has_Username_false. now apply Hfree. }
  assert (Hyes : has_Username (bUsername (body req1)) created = true).
  { now apply has_Username_true. }
  split.
  - enter_route. rewrite Hv1, Hh1. simpl.
    rewrite (findOne_none _ _ Hno). simpl.
    unfold s1, created. rewrite Hname. reflexivity.
  - enter_route. rewrite Hv2, Hh2, Hsame. simpl.
    rewrite (findOne_first _ _ [] _ Hno Hyes). simpl.
    rewrite Hname. reflexivity.
Qed.

(** C1 (amended): adding a favorite and then removing the same movie id
    leaves the user with the original favorites less every occurrence of
    that id; the original sequence is restored exactly when the id did
    not occur in it (and nothing changes when no user has the
    Username). *)
Theorem push_then_pull_favorites (s : Store) (req : Request) :
  verifyToken (authorization req) = true ->
  ((forall u, In u (users s) -> Username u <> Some (pUsername (params req))) ->
   push_then_pull verifyToken req s = s)
  /\ (forall pre u post,
        users s = (pre ++ u :: post)%list ->
        (forall x, In x pre -> Username x <> Some (pUsername (params req))) ->
        Username u = Some (pUsername (params req)) ->
        push_then_pull verifyToken req s
          = mkStore
              (pre ++ with_FavoriteMovies u
                        (pull (pMovieID (params req)) (FavoriteMovies u))
                   :: post)
              (movies s)
        /\ (push_then_pull verifyToken req s = s
            <-> ~ In (pMovieID (params req)) (FavoriteMovies u))).
Proof.
  intros Hauth. split.
  - intros Habsent.
    assert (Hno : forall u, In u (users s) ->
              has_Username (Some (pUsername (params req))) u = false).
    { intros u Hu. apply has_Username_false. now apply Habsent. }
    unfold push_then_pull. enter_route. rewrite Hauth. simpl.
    rewrite !(updateOne_none _ _ _ Hno). apply store_eta.
  - intros pre u post Hsplit Hpre Hu.
    assert (Hno : forall x, In x pre ->
              has_Username (Some (pUsername (params req))) x = false).
    { intros x Hx. apply has_Username_false. now apply Hpre. }
    apply has_Username_true in Hu.
    assert (Hrun : push_then_pull verifyToken req s
              = mkStore
                  (pre ++ with_FavoriteMovies u
                            (pull (pMovieID (params req)) (FavoriteMovies u))
                       :: post)
                  (movies s)).
    { unfold push_then_pull. enter_route. rewrite Hauth. simpl.
      rewrite Hsplit, (updateOne_first _ _ _ post _ Hno Hu).
      rewrite (updateOne_first _ _ _ post _ Hno); [|exact Hu].
      simpl. rewrite pull_snoc. reflexivity. }
    split; [exact Hrun|].
    rewrite Hrun, <- pull_fixed. destruct s as [us ms]. simpl in *. subst us.
    destruct u as [n p e b favs]. unfold with_FavoriteMovies. simpl.
    split.
    + intros H. injection H as H. apply app_inv_head in H. now injection H.
    + intros H. now rewrite H.
Qed.

End RouteFacts.

(** ** The theorems at work on the fixture *)

(** C1, as stated, fails: alice already has the movie among her favorites;
    adding it once more and removing it leaves her with none, not with the
    sequence she had. *)
Lemma push_then_pull_drops_duplicate :
  FavoriteMovies Fixture.alice = ["5c3bd189515a081b363cb7e4"]
  /\ users (push_then_pull Fixture.verifyToken
             (Fixture.request "alice1" "5c3bd189515a081b363cb7e4" ""
                Fixture.no_body)
             Fixture.store)
     = [with_FavoriteMovies Fixture.alice []; Fixture.bobby]
  /\ push_then_pull Fixture.verifyToken
       (Fixture.request "alice1" "5c3bd189515a081b363cb7e4" "" Fixture.no_body)
       Fixture.store
     <> Fixture.store.
Proof.
  split; [reflexivity|]. split; [reflexivity|]. discriminate.
Qed.

Lemma push_then_pull_favorites_witness :
  push_then_pull Fixture.verifyToken
    (Fixture.request "bobby7" "5c3bd189515a081b363cb7e4" "" Fixture.no_body)
    Fixture.store
  = Fixture.store
  <-> ~ In "5c3bd189515a081b363cb7e4" (FavoriteMovies Fixture.bobby).
Proof.
  apply (proj2 (@push_then_pull_favorites Fixture.verifyToken Fixture.store
                  (Fixture.request "bobby7" "5c3bd189515a081b363cb7e4" ""
                     Fixture.no_body) eq_refl)
               [Fixture.alice] Fixture.bobby []).
  - reflexivity.
  - intros x [<-|[]]. discriminate.
  - reflexivity.
Defined.

Lemma createUser_twice_witness :
  exists username,
    Some "carol9" = Some username
    /\ run reliable
         (createUser Fixture.hashPassword Fixture.isEmail
            (Fixture.request "" "" ""
               (mkBody (Some "carol9") (Some "x") (Some "c@d.com") None)))
         Fixture.store []
       = (mkResponse 201
            (JsonBody (JUser (mkUser (Some "carol9") (Some "$2b$10$x")
                                (Some "c@d.com") None []))),
          mkStore [Fixture.alice; Fixture.bobby;
                   mkUser (Some "carol9") (Some "$2b$10$x") (Some "c@d.com")
                          None []]
                  [Fixture.silence],
          [issued (Users_findOne (Some username));
           issued (Users_create (Some username) (Some "$2b$10$x")
                     (Some "c@d.com") None)])
    /\ run reliable
         (createUser Fixture.hashPassword Fixture.isEmail
            (Fixture.request "" "" ""
               (mkBody (Some "carol9") (Some "y") (Some "e@f.org")
                       (Some "2001-02-03"))))
         (mkStore [Fixture.alice; Fixture.bobby;
                   mkUser (Some "carol9") (Some "$2b$10$x") (Some "c@d.com")
                          None []]
                  [Fixture.silence]) []
       = (mkResponse 400 (Text (username ++ " already exists")),
          mkStore [Fixture.alice; Fixture.bobby;
                   mkUser (Some "carol9") (Some "$2b$10$x") (Some "c@d.com")
                          None []]
                  [Fixture.silence],
          [issued (Users_findOne (Some username))]).
Proof.
  apply (@createUser_twice Fixture.hashPassword Fixture.isEmail Fixture.store
           (Fixture.request "" "" ""
              (mkBody (Some "carol9") (Some "x") (Some "c@d.com") None))
           (Fixture.request "" "" ""
              (mkBody (Some "carol9") (Some "y") (Some "e@f.org")
                      (Some "2001-02-03")))
           "$2b$10$x" "$2b$10$y").
  - apply validationResult_empty_iff. reflexivity.
  - apply validationResult_empty_iff. reflexivity.
  - reflexivity.
  - reflexivity.
  - reflexivity.
  - intros u [<-|[<-|[]]]; discriminate.
Defined.

Lemma deleteUser_answers_witness :
  run reliable
    (deleteUser Fixture.verifyToken
       (Fixture.request "nobody" "" "" Fixture.no_body))
    Fixture.store []
  = (mkResponse 400 (Text "nobody was not found."), Fixture.store,
     [issued (Users_findOneAndRemove (Some "nobody"))])
  /\ run reliable
       (deleteUser Fixture.verifyToken
          (Fixture.request "bobby7" "" "" Fixture.no_body))
       Fixture.store []
     = (mkResponse 200 (Text "bobby7 was deleted."),
        mkStore [Fixture.alice] [Fixture.silence],
        [issued (Users_findOneAndRemove (Some "bobby7"))]).
Proof.
  split.
  - apply (proj1 (@deleteUser_answers Fixture.verifyToken Fixture.store
                    (Fixture.request "nobody" "" "" Fixture.no_body) eq_refl)).
    intros u [<-|[<-|[]]]; discriminate.
  - apply (proj2 (@deleteUser_answers Fixture.verifyToken Fixture.store
                    (Fixture.request "bobby7" "" "" Fixture.no_body) eq_refl)
                 [Fixture.alice] Fixture.bobby []).
    + reflexivity.
    + intros x [<-|[]]. discriminate.
    + reflexivity.
Defined.

Lemma getGenre_answers_witness :
  run reliable
    (getGenre Fixture.verifyToken
       (Fixture.request "" "" "Drama" Fixture.no_body))
    Fixture.store []
  = (mkResponse 500
       (Text "Error: TypeError: Cannot read properties of null (reading 'Genre')"),
     Fixture.store, [issued (Movies_findOne (by_Genre_Name "Drama"))])
  /\ run reliable
       (getGenre Fixture.verifyToken
          (Fixture.request "" "" "Thriller" Fixture.no_body))
       Fixture.store []
     = (mkResponse 200
          (JsonBody (JSubDoc (mkSubDoc "Thriller" "Suspense and tension"))),
        Fixture.store, [issued (Movies_findOne (by_Genre_Name "Thriller"))]).
Proof.
  split.
  - apply (proj1 (@getGenre_answers Fixture.verifyToken Fixture.store
                    (Fixture.request "" "" "Drama" Fixture.no_body) eq_refl)).
    intros m [<-|[]]. discriminate.
  - apply (proj2 (@getGenre_answers Fixture.verifyToken Fixture.store
                    (Fixture.request "" "" "Thriller" Fixture.no_body) eq_refl)
                 [] Fixture.silence []).
    + reflexivity.
    + intros x [].
    + reflexivity.
Defined.

Lemma list_routes_answer_201_witness :
  run reliable
    (getUsers Fixture.verifyToken (Fixture.request "" "" "" Fixture.no_body))
    Fixture.store []
  = (mkResponse 201 (JsonBody (JUsers [Fixture.alice; Fixture.bobby])),
     Fixture.store, [issued Users_find])
  /\ run reliable
       (getMovies Fixture.verifyToken (Fixture.request "" "" "" Fixture.no_body))
       Fixture.store []
     = (mkResponse 201 (JsonBody (JMovies [Fixture.silence])),
        Fixture.store, [issued Movies_find]).
Proof.
  apply (@list_routes_answer_201 Fixture.verifyToken reliable Fixture.store
           (Fixture.request "" "" "" Fixture.no_body)); reflexivity.
Defined.

Lemma favorite_routes_absent_user_witness :
  run reliable
    (addFavoriteMovie Fixture.verifyToken
       (Fixture.request "nobody" "5c3bd189515a081b363cb7e4" "" Fixture.no_body))
    Fixture.store []
  = (mkResponse 200 (JsonBody JNull), Fixture.store,
     [issued (Users_findOneAndUpdate (Some "nobody")
                (push_FavoriteMovies "5c3bd189515a081b363cb7e4"))])
  /\ run reliable
       (removeFavoriteMovie Fixture.verifyToken
          (Fixture.request "nobody" "5c3bd189515a081b363cb7e4" ""
             Fixture.no_body))
       Fixture.store []
     = (mkResponse 200 (JsonBody JNull), Fixture.store,
        [issued (Users_findOneAndUpdate (Some "nobody")
                   (pull_FavoriteMovies "5c3bd189515a081b363cb7e4"))])
  /\ (forall s' : Store,
        status_of
          (run reliable
             (addFavoriteMovie Fixture.verifyToken
                (Fixture.request "nobody" "5c3bd189515a081b363cb7e4" ""
                   Fixture.no_body)) s' []) = 200
        /\ status_of
             (run reliable
                (removeFavoriteMovie Fixture.verifyToken
                   (Fixture.request "nobody" "5c3bd189515a081b363cb7e4" ""
                      Fixture.no_body)) s' []) = 200).
Proof.
  apply (@favorite_routes_absent_user Fixture.verifyToken Fixture.store
           (Fixture.request "nobody" "5c3bd189515a081b363cb7e4" ""
              Fixture.no_body)).
  - reflexivity.
  - intros u [<-|[<-|[]]]; discriminate.
Defined.

Lemma updateUser_hash_failure_witness :
  run reliable
    (updateUser Fixture.hashPassword Fixture.verifyToken
       (Fixture.request "alice1" "" ""
          (mkBody (Some "alice2") None (Some "a@b.com") None)))
    Fixture.store []
  = (mkResponse 500 (Text "There was an error. Please try again."),
     Fixture.store, []).
Proof.
  apply (@updateUser_hash_failure Fixture.hashPassword Fixture.verifyToken
           reliable Fixture.store
           (Fixture.request "alice1" "" ""
              (mkBody (Some "alice2") None (Some "a@b.com") None))
           (mkError "Error" "Illegal arguments: undefined, number"));
    reflexivity.
Defined.

(** * Further properties of the routes *)

(** ** More on collections *)

Section MoreCollectionFacts.

Variable A : Type.
Variable p : A -> bool.

Lemma findOne_none_inv (l : list A) :
  Collection.findOne p l = None -> forall x, In x l -> p x = false.
Proof.
  induction l as [|y r IH]; simpl; intros H x Hx; [contradiction|].
  destruct (p y) eqn:Ey; [discriminate|].
  destruct Hx as [<-|Hx]; [exact Ey | now apply IH].
Qed.

Lemma findOne_some_split (l : list A) (x : A) :
  Collection.findOne p l = Some x ->
  exists pre post,
    l = (pre ++ x :: post)%list
    /\ (forall y, In y pre -> p y = false)
    /\ p x = true.
Proof.
  induction l as [|y r IH]; simpl; intros H; [discriminate|].
  destruct (p y) eqn:Ey.
  - injection H as <-. exists [], r. repeat split; [intros z []| exact Ey].
  - destruct (IH H) as (pre & post & -> & Hpre & Hx).
    exists (y :: pre), post. repeat split; [|exact Hx].
    intros z [<-|Hz]; [exact Ey | now apply Hpre].
Qed.

Lemma In_removeOne (l : list A) (x : A) :
  In x (Collection.removeOne p l) -> In x l.
Proof.
  induction l as [|y r IH]; simpl; [tauto|].
  destruct (p y); simpl; intuition.
Qed.

Lemma In_updateOne (f : A -> A) (l : list A) (x : A) :
  In x (Collection.updateOne p f l) ->
  In x l \/ exists y, In y l /\ p y = true /\ x = f y.
Proof.
  induction l as [|y r IH]; simpl; [tauto|].
  destruct (p y) eqn:Ey; simpl.
  - intros [<-|Hx]; [right; exists y; auto | left; now right].
  - intros [<-|Hx]; [left; now left|].
    destruct (IH Hx) as [H|(z & Hz & Hpz & E)]; [left; now right|].
    right. exists z. auto.
Qed.

Lemma map_updateOne (B : Type) (g : A -> B) (f : A -> A) (l : list A) :
  (forall x, g (f x) = g x) ->
  map g (Collection.updateOne p f l) = map g l.
Proof.
  intros Hg. induction l as [|y r IH]; simpl; [reflexivity|].
  destruct (p y); simpl; [now rewrite Hg | now rewrite IH].
Qed.

Lemma NoDup_map_removeOne (B : Type) (g : A -> B) (l : list A) :
  NoDup (map g l) -> NoDup (map g (Collection.removeOne p l)).
Proof.
  induction l as [|y r IH]; simpl; intros H; [exact H|].
  inversion H as [|? ? Hnotin Hrest]; subst.
  destruct (p y); [exact Hrest|].
  simpl. constructor; [|now apply IH].
  intros Hin. apply Hnotin. apply in_map_iff in Hin as (z & Hz & Hin).
  apply in_map_iff. exists z. split; [exact Hz | now apply In_removeOne in Hin].
Qed.

End MoreCollectionFacts.

Lemma has_Username_spec (v : option string) (u : User) :
  has_Username v u = true <-> Username u = v.
Proof. unfold has_Username. apply strict_eq_spec. Qed.

(** Among users with distinct Usernames, the one removed was the only one
    of its name. *)
Lemma findOne_removeOne_unique (v : option string) (l : list User) :
  NoDup (map Username l) ->
  Collection.findOne (has_Username v) (Collection.removeOne (has_Username v) l)
  = None.
Proof.
  induction l as [|y r IH]; simpl; intros H; [reflexivity|].
  inversion H as [|? ? Hnotin Hrest]; subst.
  destruct (has_Username v y) eqn:Ey.
  - apply has_Username_spec in Ey. apply findOne_none.
    intros x Hx. apply has_Username_false. intros E. apply Hnotin.
    rewrite Ey, <- E. now apply in_map.
  - simpl. rewrite Ey. now apply IH.
Qed.

Lemma NoDup_snoc (B : Type) (l : list B) (x : B) :
  NoDup l -> ~ In x l -> NoDup (l ++ [x]).
Proof.
  intros Hl Hx. induction l as [|y r IH]; simpl.
  - constructor; [intros []|constructor].
  - inversion Hl as [|? ? Hy Hr]; subst. constructor.
    + rewrite in_app_iff. simpl. intros [H|[H|[]]]; [contradiction|].
      apply Hx. now left.
    + apply IH; [exact Hr|]. intros H. apply Hx. now right.
Qed.

(** ** The application *)

Section AppFacts.

Variable hashPassword : option string -> Error + string.
Variable verifyToken : option string -> bool.
Variable isEmail : string -> bool.

Ltac walk faults :=
  repeat (simpl;
    match goal with
    | H : faults ?n = _ |- context [faults ?n] => rewrite H
    | H : verifyToken ?a = _ |- context [verifyToken ?a] => rewrite H
    | H : hashPassword ?a = _ |- context [hashPassword ?a] => rewrite H
    | |- context [if verifyToken ?a then _ else _] => destruct (verifyToken a)
    | |- context [if negb (isEmpty ?x) then _ else _] => destruct (isEmpty x)
    | |- context [match hashPassword ?a with _ => _ end] =>
        destruct (hashPassword a)
    | |- context [match faults ?n with _ => _ end] => destruct (faults n)
    | |- context [match Collection.findOne ?q ?l with _ => _ end] =>
        destruct (Collection.findOne q l)
    end).

(** X1: a protected route whose token is rejected answers 401 without
    issuing a query, and the store stays as it was. *)
Theorem rejected_token_is_401 (faults : nat -> option Error) (e : Endpoint)
    (req : Request) (s : Store) :
  protected e = true ->
  verifyToken (authorization req) = false ->
  run faults (handler hashPassword verifyToken isEmail e req) s []
  = (mkResponse 401 (Text "Unauthorized"), s, []).
Proof.
  intros Hprot Hrej.
  destruct e; try discriminate; enter_any; rewrite Hrej; reflexivity.
Qed.

(** X2: a request whose origin the CORS check rejects reaches no route,
    whatever its token: the answer is the 500 of the error middleware, no
    query is issued and the store stays as it was. *)
Theorem rejected_origin_reaches_no_route (faults : nat -> option Error)
    (o : string) (e : Endpoint) (req : Request) (s : Store) :
  o <> "" ->
  ~ In o allowedOrigins ->
  run faults (app hashPassword verifyToken isEmail (Some o) e req) s []
  = (mkResponse 500 (Text "There was an error. Please try again."), s, []).
Proof.
  intros Hne Hout. unfold app, cors, origin_callback. simpl.
  apply String.eqb_neq in Hne. rewrite Hne. simpl.
  apply indexOf_absent in Hout. rewrite Hout. reflexivity.
Qed.

(** X4: a GET route leaves the whole store as it was. *)
Theorem get_routes_leave_store (faults : nat -> option Error)
    (origin : option string) (e : Endpoint) (req : Request) (s : Store) :
  is_GET e = true ->
  store_of (run faults (app hashPassword verifyToken isEmail origin e req) s [])
  = s.
Proof.
  intros Hget. unfold app, cors.
  destruct (origin_callback origin) as [[err|] verdict]; [reflexivity|].
  destruct e; try discriminate; enter_any; walk faults; reflexivity.
Qed.

(** X6: the status of an answer is one of those its route sets; in
    particular no route answers 404, and the two list routes never
    answer 200. *)
Theorem status_in_table (faults : nat -> option Error) (e : Endpoint)
    (req : Request) (s : Store) :
  In (status_of (run faults (handler hashPassword verifyToken isEmail e req) s []))
     (statuses e).
Proof.
  destruct e; enter_any; walk faults; simpl; tauto.
Qed.

(** X7: a request sends one query at most, two for [POST /users], none
    for [GET /]; a rejected query is not sent again. *)
Theorem queries_within_budget (faults : nat -> option Error) (e : Endpoint)
    (req : Request) (s : Store) :
  length (log_of (run faults (handler hashPassword verifyToken isEmail e req) s []))
  <= query_budget e.
Proof.
  destruct e; enter_any; walk faults; simpl; lia.
Qed.

(** X10: whatever the request, a Password found in the store afterwards
    was there before or is the digest [hashPassword] returned for the
    Password of the body: no route stores the Password it receives. *)
Theorem stored_passwords_are_digests (faults : nat -> option Error)
    (origin : option string) (e : Endpoint) (req : Request) (s : Store)
    (u : User) :
  In u (users (store_of
                 (run faults (app hashPassword verifyToken isEmail origin e req)
                      s []))) ->
  (exists before, In before (users s) /\ Password u = Password before)
  \/ (exists digest,
        hashPassword (bPassword (body req)) = inr digest
        /\ Password u = Some digest).
Proof.
  assert (Hsame : In u (users s) ->
            (exists before, In before (users s) /\ Password u = Password before)
            \/ (exists digest,
                  hashPassword (bPassword (body req)) = inr digest
                  /\ Password u = Some digest)).
  { intros Hu. left. exists u. auto. }
  unfold app, cors. destruct (origin_callback origin) as [[err|] verdict].
  { exact Hsame. }
  destruct e; enter_any.
  1,3-8: walk faults; exact Hsame.
  - (* POST /users *)
    destruct (validationResult isEmail req); simpl; [|exact Hsame].
    destruct (hashPassword (bPassword (body req))) as [thrown|digest] eqn:Hhash;
      [exact Hsame|].
    walk faults; try exact Hsame.
    unfold store_of. simpl. rewrite in_app_iff. intros [Hu|[<-|[]]].
    + now apply Hsame.
    + right. exists digest. auto.
  - (* PUT /users/:Username *)
    destruct (verifyToken (authorization req)); [|exact Hsame].
    destruct (hashPassword (bPassword (body req))) as [thrown|digest] eqn:Hhash;
      [exact Hsame|].
    walk faults; try exact Hsame.
    unfold store_of. simpl. intros Hu.
    apply In_updateOne in Hu as [Hu|(y & Hy & _ & ->)]; [now apply Hsame|].
    right. exists digest. auto.
  - (* POST /users/:Username/movies/:MovieID *)
    walk faults; try exact Hsame.
    unfold store_of. simpl. intros Hu.
    apply In_updateOne in Hu as [Hu|(y & Hy & _ & ->)]; [now apply Hsame|].
    left. exists y. auto.
  - (* DELETE /users/:Username/movies/:MovieID *)
    walk faults; try exact Hsame.
    unfold store_of. simpl. intros Hu.
    apply In_updateOne in Hu as [Hu|(y & Hy & _ & ->)]; [now apply Hsame|].
    left. exists y. auto.
  - (* DELETE /users/:Username *)
    walk faults; try exact Hsame.
    all: unfold store_of; simpl; intros Hu.
    all: apply In_removeOne in Hu; now apply Hsame.
Qed.

(** X11: every route but [PUT /users/:Username] keeps the Usernames of
    the stored users pairwise distinct, whatever the request and the
    faults of the storage layer. *)
Theorem unique_usernames_kept (faults : nat -> option Error)
    (origin : option string) (e : Endpoint) (req : Request) (s : Store) :
  e <> PUT_users_Username ->
  unique_usernames s ->
  unique_usernames
    (store_of (run faults (app hashPassword verifyToken isEmail origin e req) s [])).
Proof.
  intros Hput Huniq. unfold app, cors.
  destruct (origin_callback origin) as [[err|] verdict]; [exact Huniq|].
  destruct e; try contradiction; enter_any.
  1,3-8: walk faults; exact Huniq.
  - (* POST /users *)
    destruct (validationResult isEmail req); simpl; [|exact Huniq].
    destruct (hashPassword (bPassword (body req))) as [thrown|digest];
      [exact Huniq|].
    simpl. destruct (faults 0); [exact Huniq|]. simpl.
    destruct (Collection.findOne (has_Username (bUsername (body req))) (users s))
      as [taken|] eqn:Hfind; [exact Huniq|].
    simpl. destruct (faults 1); [exact Huniq|].
    unfold unique_usernames, usernames, store_of. simpl.
    rewrite map_app. simpl. apply NoDup_snoc; [exact Huniq|].
    intros Hin. apply in_map_iff in Hin as (x & Hx & Hin).
    pose proof (findOne_none_inv _ _ Hfind x Hin) as Hno.
    apply has_Username_true in Hx. congruence.
  - (* POST /users/:Username/movies/:MovieID *)
    walk faults; try exact Huniq.
    unfold unique_usernames, usernames, store_of. simpl.
    rewrite map_updateOne; [exact Huniq | reflexivity].
  - (* DELETE /users/:Username/movies/:MovieID *)
    walk faults; try exact Huniq.
    unfold unique_usernames, usernames, store_of. simpl.
    rewrite map_updateOne; [exact Huniq | reflexivity].
  - (* DELETE /users/:Username *)
    walk faults; try exact Huniq.
    all: unfold unique_usernames, usernames, store_of; simpl.
    all: now apply NoDup_map_removeOne.
Qed.

(** X12: [PUT /users/:Username] does not keep them distinct: renaming a
    user to the Username of another stored user succeeds and leaves two
    users of that name. *)
Theorem updateUser_duplicates_username (s : Store) (req : Request)
    (digest : string) (pre post : list User) (u other : User) :
  verifyToken (authorization req) = true ->
  hashPassword (bPassword (body req)) = inr digest ->
  users s = (pre ++ u :: post)%list ->
  (forall x, In x pre -> Username x <> Some (pUsername (params req))) ->
  Username u = Some (pUsername (params req)) ->
  In other (pre ++ post) ->
  Username other = bUsername (body req) ->
  status_of (run reliable (updateUser hashPassword verifyToken req) s []) = 200
  /\ ~ unique_usernames
        (store_of (run reliable (updateUser hashPassword verifyToken req) s [])).
Proof.
  intros Hauth Hhash Hsplit Hpre Hu Hother Hname.
  assert (Hno : forall x, In x pre ->
            has_Username (Some (pUsername (params req))) x = false).
  { intros x Hx. apply has_Username_false. now apply Hpre. }
  apply has_Username_true in Hu.
  enter_any. rewrite Hauth, Hhash. simpl. rewrite Hsplit.
  rewrite (findOne_first _ _ post _ Hno Hu),
          (updateOne_first _ _ _ post _ Hno Hu).
  split; [reflexivity|].
  unfold unique_usernames, usernames, store_of. simpl.
  rewrite map_app. simpl. intros Hdup.
  apply NoDup_remove_2 in Hdup. apply Hdup.
  rewrite <- map_app, <- Hname. now apply in_map.
Qed.

(** A valid registration of a free Username on a storage layer that
    rejects nothing. *)
Lemma createUser_registers (s : Store) (req : Request) (digest : string) :
  valid_registration isEmail (body req) ->
  hashPassword (bPassword (body req)) = inr digest ->
  (forall u, In u (users s) -> Username u <> bUsername (body req)) ->
  store_of (run reliable (createUser hashPassword isEmail req) s [])
  = mkStore (users s
             ++ [mkUser (bUsername (body req)) (Some digest) (bEmail (body req))
                        (bBirthday (body req)) []])
            (movies s).
Proof.
  intros Hvalid Hhash Hfree.
  apply validationResult_empty_iff in Hvalid.
  assert (Hno : forall u, In u (users s) ->
            has_Username (bUsername (body req)) u = false).
  { intros u Hu. apply has_Username_false. now apply Hfree. }
  enter_any. rewrite Hvalid, Hhash. simpl.
  rewrite (findOne_none _ _ Hno). reflexivity.
Qed.

(** X13: after a registration answered 201, [GET /users/:Username] with
    that Username answers the user just created. *)
Theorem register_then_lookup (s : Store) (req lookup : Request)
    (digest : string) :
  valid_registration isEmail (body req) ->
  hashPassword (bPassword (body req)) = inr digest ->
  (forall u, In u (users s) -> Username u <> bUsername (body req)) ->
  verifyToken (authorization lookup) = true ->
  bUsername (body req) = Some (pUsername (params lookup)) ->
  answer_of
    (run reliable (getUser verifyToken lookup)
         (store_of (run reliable (createUser hashPassword isEmail req) s [])) [])
  = mkResponse 200
      (JsonBody (JUser (mkUser (bUsername (body req)) (Some digest)
                          (bEmail (body req)) (bBirthday (body req)) []))).
Proof.
  intros Hvalid Hhash Hfree Hauth Hname.
  rewrite (createUser_registers _ _ Hvalid Hhash Hfree).
  assert (Hno : forall u, In u (users s) ->
            has_Username (Some (pUsername (params lookup))) u = false).
  { intros u Hu. apply has_Username_false. rewrite <- Hname. now apply Hfree. }
  enter_any. rewrite Hauth. simpl.
  rewrite (findOne_first _ _ [] _ Hno); [reflexivity|].
  now apply has_Username_true.
Qed.

(** X14: after a registration answered 201, [DELETE /users/:Username]
    with that Username answers "was deleted." and gives back the store
    there was before the registration. *)
Theorem register_then_delete_restores (s : Store) (req del : Request)
    (digest : string) :
  valid_registration isEmail (body req) ->
  hashPassword (bPassword (body req)) = inr digest ->
  (forall u, In u (users s) -> Username u <> bUsername (body req)) ->
  verifyToken (authorization del) = true ->
  bUsername (body req) = Some (pUsername (params del)) ->
  run reliable (deleteUser verifyToken del)
      (store_of (run reliable (createUser hashPassword isEmail req) s [])) []
  = (mkResponse 200 (Text (pUsername (params del) ++ " was deleted.")), s,
     [issued (Users_findOneAndRemove (Some (pUsername (params del))))]).
Proof.
  intros Hvalid Hhash Hfree Hauth Hname.
  rewrite (createUser_registers _ _ Hvalid Hhash Hfree).
  assert (Hno : forall u, In u (users s) ->
            has_Username (Some (pUsername (params del))) u = false).
  { intros u Hu. apply has_Username_false. rewrite <- Hname. now apply Hfree. }
  assert (Hyes : has_Username (Some (pUsername (params del)))
                   (mkUser (bUsername (body req)) (Some digest)
                      (bEmail (body req)) (bBirthday (body req)) []) = true).
  { now apply has_Username_true. }
  enter_any. rewrite Hauth. simpl.
  rewrite (findOne_first _ _ [] _ Hno Hyes), (removeOne_first _ _ [] _ Hno Hyes).
  simpl. rewrite app_nil_r, store_eta. reflexivity.
Qed.

(** X15: when the stored Usernames are pairwise distinct, a lookup that
    follows [DELETE /users/:Username] finds no user of that name any
    more, whether there was one or not. *)
Theorem delete_then_lookup_null (s : Store) (req : Request) :
  unique_usernames s ->
  verifyToken (authorization req) = true ->
  answer_of
    (run reliable (getUser verifyToken req)
         (store_of (run reliable (deleteUser verifyToken req) s [])) [])
  = mkResponse 200 (JsonBody JNull).
Proof.
  intros Huniq Hauth.
  assert (Hstore : store_of (run reliable (deleteUser verifyToken req) s [])
            = mkStore (Collection.removeOne
                         (has_Username (Some (pUsername (params req)))) (users s))
                      (movies s)).
  { enter_any. rewrite Hauth. simpl.
    destruct (Collection.findOne _ (users s)); reflexivity. }
  rewrite Hstore. enter_any. rewrite Hauth. simpl.
  rewrite (@findOne_removeOne_unique _ _ Huniq). reflexivity.
Qed.

(** X16: [GET /users/:Username] and [GET /movies/:Title] answer 200 with
    the first document of that name, and 200 with [null], not an error,
    when there is none. *)
Theorem lookup_routes_answer (s : Store) (req : Request) :
  verifyToken (authorization req) = true ->
  ((forall u, In u (users s) -> Username u <> Some (pUsername (params req))) ->
   run reliable (getUser verifyToken req) s []
   = (mkResponse 200 (JsonBody JNull), s,
      [issued (Users_findOne (Some (pUsername (params req))))]))
  /\ (forall pre u post,
        users s = (pre ++ u :: post)%list ->
        (forall x, In x pre -> Username x <> Some (pUsername (params req))) ->
        Username u = Some (pUsername (params req)) ->
        run reliable (getUser verifyToken req) s []
        = (mkResponse 200 (JsonBody (JUser u)), s,
           [issued (Users_findOne (Some (pUsername (params req))))]))
  /\ ((forall m, In m (movies s) -> Title m <> pTitle (params req)) ->
      run reliable (getMovie verifyToken req) s []
      = (mkResponse 200 (JsonBody JNull), s,
         [issued (Movies_findOne (by_Title (pTitle (params req))))]))
  /\ (forall pre m post,
        movies s = (pre ++ m :: post)%list ->
        (forall x, In x pre -> Title x <> pTitle (params req)) ->
        Title m = pTitle (params req) ->
        run reliable (getMovie verifyToken req) s []
        = (mkResponse 200 (JsonBody (JMovie m)), s,
           [issued (Movies_findOne (by_Title (pTitle (params req))))])).
Proof.
  intros Hauth. repeat split.
  - intros Habsent.
    assert (Hno : forall u, In u (users s) ->
              has_Username (Some (pUsername (params req))) u = false).
    { intros u Hu. apply has_Username_false. now apply Habsent. }
    enter_any. rewrite Hauth. simpl. rewrite (findOne_none _ _ Hno). reflexivity.
  - intros pre u post Hsplit Hpre Hu.
    assert (Hno : forall x, In x pre ->
              has_Username (Some (pUsername (params req))) x = false).
    { intros x Hx. apply has_Username_false. now apply Hpre. }
    apply has_Username_true in Hu.
    enter_any. rewrite Hauth. simpl. rewrite Hsplit.
    rewrite (findOne_first _ _ post _ Hno Hu). reflexivity.
  - intros Habsent.
    assert (Hno : forall m, In m (movies s) ->
              movie_matches (by_Title (pTitle (params req))) m = false).
    { intros m Hm. simpl. apply String.eqb_neq. now apply Habsent. }
    enter_any. rewrite Hauth. simpl. rewrite (findOne_none _ _ Hno). reflexivity.
  - intros pre m post Hsplit Hpre Hm.
    assert (Hno : forall x, In x pre ->
              movie_matches (by_Title (pTitle (params req))) x = false).
    { intros x Hx. simpl. apply String.eqb_neq. now apply Hpre. }
    assert (Hyes : movie_matches (by_Title (pTitle (params req))) m = true).
    { simpl. now apply String.eqb_eq. }
    enter_any. rewrite Hauth. simpl. rewrite Hsplit.
    rewrite (findOne_first _ _ post _ Hno Hyes). reflexivity.
Qed.

(** X17: [GET /movies/directors/:Name] answers 200 with the Director of
    the first movie directed by that name, and 500 with the TypeError of
    reading [null] when there is none. *)
Theorem getDirector_answers (s : Store) (req : Request) :
  verifyToken (authorization req) = true ->
  ((forall m, In m (movies s) -> Name (Director m) <> pName (params req)) ->
   run reliable (getDirector verifyToken req) s []
   = (mkResponse 500
        (Text "Error: TypeError: Cannot read properties of null (reading 'Director')"),
      s,
      [issued (Movies_findOne (by_Director_Name (pName (params req))))]))
  /\ (forall pre m post,
        movies s = (pre ++ m :: post)%list ->
        (forall x, In x pre -> Name (Director x) <> pName (params req)) ->
        Name (Director m) = pName (params req) ->
        run reliable (getDirector verifyToken req) s []
        = (mkResponse 200 (JsonBody (JSubDoc (Director m))), s,
           [issued (Movies_findOne (by_Director_Name (pName (params req))))])).
Proof.
  intros Hauth. split.
  - intros Habsent.
    assert (Hno : forall m, In m (movies s) ->
              movie_matches (by_Director_Name (pName (params req))) m = false).
    { intros m Hm. simpl. apply String.eqb_neq. now apply Habsent. }
    enter_any. rewrite Hauth. simpl. rewrite (findOne_none _ _ Hno). reflexivity.
  - intros pre m post Hsplit Hpre Hm.
    assert (Hno : forall x, In x pre ->
              movie_matches (by_Director_Name (pName (params req))) x = false).
    { intros x Hx. simpl. apply String.eqb_neq. now apply Hpre. }
    assert (Hyes : movie_matches (by_Director_Name (pName (params req))) m = true).
    { simpl. now apply String.eqb_eq. }
    enter_any. rewrite Hauth. simpl. rewrite Hsplit.
    rewrite (findOne_first _ _ post _ Hno Hyes). reflexivity.
Qed.

(** X18: [POST /users/:Username/movies/:MovieID] appends the movie id to
    the favorites of the first user of that name and answers the updated
    user, whether or not the id is already a favorite or names a stored
    movie; nothing else changes. *)
Theorem addFavoriteMovie_appends (s : Store) (req : Request)
    (pre post : list User) (u : User) :
  verifyToken (authorization req) = true ->
  users s = (pre ++ u :: post)%list ->
  (forall x, In x pre -> Username x <> Some (pUsername (params req))) ->
  Username u = Some (pUsername (params req)) ->
  let u' := with_FavoriteMovies u (FavoriteMovies u ++ [pMovieID (params req)]) in
  run reliable (addFavoriteMovie verifyToken req) s []
  = (mkResponse 200 (JsonBody (JUser u')),
     mkStore (pre ++ u' :: post) (movies s),
     [issued (Users_findOneAndUpdate (Some (pUsername (params req)))
                (push_FavoriteMovies (pMovieID (params req))))]).
Proof.
  intros Hauth Hsplit Hpre Hu u'.
  assert (Hno : forall x, In x pre ->
            has_Username (Some (pUsername (params req))) x = false).
  { intros x Hx. apply has_Username_false. now apply Hpre. }
  apply has_Username_true in Hu.
  enter_any. rewrite Hauth. simpl. rewrite Hsplit.
  rewrite (findOne_first _ _ post _ Hno Hu),
          (updateOne_first _ _ _ post _ Hno Hu).
  reflexivity.
Qed.

Lemma pull_removes (id : string) (l : list string) :
  ~ In id (pull id l).
Proof.
  unfold pull. intros H. apply filter_In in H as [_ H].
  now rewrite String.eqb_refl in H.
Qed.

Lemma pull_keeps (id x : string) (l : list string) :
  x <> id -> In x l -> In x (pull id l).
Proof.
  intros Hne Hin. unfold pull. apply filter_In. split; [exact Hin|].
  apply negb_true_iff. now apply String.eqb_neq.
Qed.

Lemma pull_pull (id : string) (l : list string) :
  pull id (pull id l) = pull id l.
Proof. apply pull_fixed. apply pull_removes. Qed.

Lemma updateOne_idem (A : Type) (p : A -> bool) (f : A -> A) (l : list A) :
  (forall x, p x = true -> p (f x) = true) ->
  (forall x, f (f x) = f x) ->
  Collection.updateOne p f (Collection.updateOne p f l)
  = Collection.updateOne p f l.
Proof.
  intros Hp Hf. induction l as [|y r IH]; simpl; [reflexivity|].
  destruct (p y) eqn:Ey; simpl.
  - now rewrite (Hp y Ey), Hf.
  - now rewrite Ey, IH.
Qed.

(** X19: [DELETE /users/:Username/movies/:MovieID] answers the user with
    every occurrence of the movie id gone from the favorites, the other
    favorites staying. *)
Theorem removeFavoriteMovie_removes_all (s : Store) (req : Request)
    (pre post : list User) (u : User) :
  verifyToken (authorization req) = true ->
  users s = (pre ++ u :: post)%list ->
  (forall x, In x pre -> Username x <> Some (pUsername (params req))) ->
  Username u = Some (pUsername (params req)) ->
  exists favorites,
    run reliable (removeFavoriteMovie verifyToken req) s []
    = (mkResponse 200 (JsonBody (JUser (with_FavoriteMovies u favorites))),
       mkStore (pre ++ with_FavoriteMovies u favorites :: post) (movies s),
       [issued (Users_findOneAndUpdate (Some (pUsername (params req)))
                  (pull_FavoriteMovies (pMovieID (params req))))])
    /\ ~ In (pMovieID (params req)) favorites
    /\ (forall x, x <> pMovieID (params req) ->
                  (In x favorites <-> In x (FavoriteMovies u))).
Proof.
  intros Hauth Hsplit Hpre Hu.
  assert (Hno : forall x, In x pre ->
            has_Username (Some (pUsername (params req))) x = false).
  { intros x Hx. apply has_Username_false. now apply Hpre. }
  apply has_Username_true in Hu.
  exists (pull (pMovieID (params req)) (FavoriteMovies u)).
  split; [|split].
  - enter_any. rewrite Hauth. simpl. rewrite Hsplit.
    rewrite (findOne_first _ _ post _ Hno Hu),
            (updateOne_first _ _ _ post _ Hno Hu).
    reflexivity.
  - apply pull_removes.
  - intros x Hx. split.
    + unfold pull. intros H. now apply filter_In in H.
    + now apply pull_keeps.
Qed.

(** X20: removing a favorite a second time changes nothing more. *)
Theorem removeFavoriteMovie_idempotent (req : Request) (s : Store) :
  store_of
    (run reliable (removeFavoriteMovie verifyToken req)
         (store_of (run reliable (removeFavoriteMovie verifyToken req) s [])) [])
  = store_of (run reliable (removeFavoriteMovie verifyToken req) s []).
Proof.
  enter_any. destruct (verifyToken (authorization req)); [|reflexivity].
  unfold store_of. simpl. f_equal. apply updateOne_idem.
  - intros x Hx. exact Hx.
  - intros x. simpl. now rewrite pull_pull.
Qed.

End AppFacts.

(** ** The further properties at work on the fixture *)

Lemma rejected_token_is_401_witness :
  run reliable
    (handler Fixture.hashPassword Fixture.verifyToken Fixture.isEmail
       DELETE_users_Username
       (mkRequest (Some "Bearer forged") (mkParams "alice1" "" "" "")
          Fixture.no_body))
    Fixture.store []
  = (mkResponse 401 (Text "Unauthorized"), Fixture.store, []).
Proof.
  apply (@rejected_token_is_401 Fixture.hashPassword Fixture.verifyToken
           Fixture.isEmail reliable DELETE_users_Username
           (mkRequest (Some "Bearer forged") (mkParams "alice1" "" "" "")
              Fixture.no_body)
           Fixture.store); reflexivity.
Defined.

Lemma rejected_origin_reaches_no_route_witness :
  run reliable
    (app Fixture.hashPassword Fixture.verifyToken Fixture.isEmail
       (Some "http://elsewhere.example") DELETE_users_Username
       (Fixture.request "alice1" "" "" Fixture.no_body))
    Fixture.store []
  = (mkResponse 500 (Text "There was an error. Please try again."),
     Fixture.store, []).
Proof.
  apply (@rejected_origin_reaches_no_route Fixture.hashPassword
           Fixture.verifyToken Fixture.isEmail reliable
           "http://elsewhere.example" DELETE_users_Username
           (Fixture.request "alice1" "" "" Fixture.no_body) Fixture.store).
  - discriminate.
  - simpl. intros H. repeat (destruct H as [H|H]; [discriminate|]). exact H.
Defined.

Lemma get_routes_leave_store_witness :
  store_of
    (run (first_query_fails (mkError "MongoError" "connection closed"))
       (app Fixture.hashPassword Fixture.verifyToken Fixture.isEmail None
          GET_movies_genres_Name
          (Fixture.request "" "" "Thriller" Fixture.no_body))
       Fixture.store [])
  = Fixture.store.
Proof.
  apply (@get_routes_leave_store Fixture.hashPassword Fixture.verifyToken
           Fixture.isEmail
           (first_query_fails (mkError "MongoError" "connection closed")) None
           GET_movies_genres_Name
           (Fixture.request "" "" "Thriller" Fixture.no_body) Fixture.store).
  reflexivity.
Defined.

Lemma stored_passwords_are_digests_witness :
  (exists before,
      In before (users Fixture.store)
      /\ Some "$2b$10$x" = Password before)
  \/ (exists digest,
        Fixture.hashPassword (Some "x") = inr digest
        /\ Some "$2b$10$x" = Some digest).
Proof.
  apply (@stored_passwords_are_digests Fixture.hashPassword Fixture.verifyToken
           Fixture.isEmail reliable None POST_users
           (Fixture.request "" "" ""
              (mkBody (Some "carol9") (Some "x") (Some "c@d.com") None))
           Fixture.store
           (mkUser (Some "carol9") (Some "$2b$10$x") (Some "c@d.com") None [])).
  simpl. right. right. left. reflexivity.
Defined.

Lemma unique_usernames_kept_witness :
  unique_usernames
    (store_of
       (run reliable
          (app Fixture.hashPassword Fixture.verifyToken Fixture.isEmail None
             POST_users
             (Fixture.request "" "" ""
                (mkBody (Some "carol9") (Some "x") (Some "c@d.com") None)))
          Fixture.store [])).
Proof.
  apply (@unique_usernames_kept Fixture.hashPassword Fixture.verifyToken
           Fixture.isEmail reliable None POST_users
           (Fixture.request "" "" ""
              (mkBody (Some "carol9") (Some "x") (Some "c@d.com") None))
           Fixture.store).
  - discriminate.
  - unfold unique_usernames. simpl. constructor.
    + simpl. intros [H|[]]. discriminate.
    + constructor; [intros [] | constructor].
Defined.

Lemma updateUser_duplicates_username_witness :
  status_of
    (run reliable
       (updateUser Fixture.hashPassword Fixture.verifyToken
          (Fixture.request "alice1" "" ""
             (mkBody (Some "bobby7") (Some "new") (Some "a@b.com") None)))
       Fixture.store [])
  = 200
  /\ ~ unique_usernames
        (store_of
           (run reliable
              (updateUser Fixture.hashPassword Fixture.verifyToken
                 (Fixture.request "alice1" "" ""
                    (mkBody (Some "bobby7") (Some "new") (Some "a@b.com") None)))
              Fixture.store [])).
Proof.
  apply (@updateUser_duplicates_username Fixture.hashPassword
           Fixture.verifyToken Fixture.store
           (Fixture.request "alice1" "" ""
              (mkBody (Some "bobby7") (Some "new") (Some "a@b.com") None))
           "$2b$10$new" [] [Fixture.bobby] Fixture.alice Fixture.bobby).
  - reflexivity.
  - reflexivity.
  - reflexivity.
  - intros x [].
  - reflexivity.
  - simpl. now left.
  - reflexivity.
Defined.

Lemma register_then_lookup_witness :
  answer_of
    (run reliable
       (getUser Fixture.verifyToken
          (Fixture.request "carol9" "" "" Fixture.no_body))
       (store_of
          (run reliable
             (createUser Fixture.hashPassword Fixture.isEmail
                (Fixture.request "" "" ""
                   (mkBody (Some "carol9") (Some "x") (Some "c@d.com") None)))
             Fixture.store [])) [])
  = mkResponse 200
      (JsonBody (JUser (mkUser (Some "carol9") (Some "$2b$10$x")
                          (Some "c@d.com") None []))).
Proof.
  apply (@register_then_lookup Fixture.hashPassword Fixture.verifyToken
           Fixture.isEmail Fixture.store
           (Fixture.request "" "" ""
              (mkBody (Some "carol9") (Some "x") (Some "c@d.com") None))
           (Fixture.request "carol9" "" "" Fixture.no_body) "$2b$10$x").
  - apply validationResult_empty_iff. reflexivity.
  - reflexivity.
  - intros u [<-|[<-|[]]]; discriminate.
  - reflexivity.
  - reflexivity.
Defined.

Lemma register_then_delete_restores_witness :
  run reliable
    (deleteUser Fixture.verifyToken
       (Fixture.request "carol9" "" "" Fixture.no_body))
    (store_of
       (run reliable
          (createUser Fixture.hashPassword Fixture.isEmail
             (Fixture.request "" "" ""
                (mkBody (Some "carol9") (Some "x") (Some "c@d.com") None)))
          Fixture.store [])) []
  = (mkResponse 200 (Text "carol9 was deleted."), Fixture.store,
     [issued (Users_findOneAndRemove (Some "carol9"))]).
Proof.
  apply (@register_then_delete_restores Fixture.hashPassword
           Fixture.verifyToken Fixture.isEmail Fixture.store
           (Fixture.request "" "" ""
              (mkBody (Some "carol9") (Some "x") (Some "c@d.com") None))
           (Fixture.request "carol9" "" "" Fixture.no_body) "$2b$10$x").
  - apply validationResult_empty_iff. reflexivity.
  - reflexivity.
  - intros u [<-|[<-|[]]]; discriminate.
  - reflexivity.
  - reflexivity.
Defined.

Lemma delete_then_lookup_null_witness :
  answer_of
    (run reliable
       (getUser Fixture.verifyToken
          (Fixture.request "alice1" "" "" Fixture.no_body))
       (store_of
          (run reliable
             (deleteUser Fixture.verifyToken
                (Fixture.request "alice1" "" "" Fixture.no_body))
             Fixture.store [])) [])
  = mkResponse 200 (JsonBody JNull).
Proof.
  apply (@delete_then_lookup_null Fixture.verifyToken Fixture.store
           (Fixture.request "alice1" "" "" Fixture.no_body)).
  - unfold unique_usernames. simpl. constructor.
    + simpl. intros [H|[]]. discriminate.
    + constructor; [intros [] | constructor].
  - reflexivity.
Defined.

Lemma lookup_routes_answer_witness :
  run reliable
    (getUser Fixture.verifyToken
       (Fixture.request "nobody" "" "" Fixture.no_body))
    Fixture.store []
  = (mkResponse 200 (JsonBody JNull), Fixture.store,
     [issued (Users_findOne (Some "nobody"))]).
Proof.
  apply (proj1 (@lookup_routes_answer Fixture.verifyToken Fixture.store
                  (Fixture.request "nobody" "" "" Fixture.no_body) eq_refl)).
  intros u [<-|[<-|[]]]; discriminate.
Defined.

Lemma getDirector_answers_witness :
  run reliable
    (getDirector Fixture.verifyToken
       (Fixture.request "" "" "Nobody" Fixture.no_body))
    Fixture.store []
  = (mkResponse 500
       (Text "Error: TypeError: Cannot read properties of null (reading 'Director')"),
     Fixture.store, [issued (Movies_findOne (by_Director_Name "Nobody"))])
  /\ run reliable
       (getDirector Fixture.verifyToken
          (Fixture.request "" "" "Jonathan Demme" Fixture.no_body))
       Fixture.store []
     = (mkResponse 200
          (JsonBody (JSubDoc (mkSubDoc "Jonathan Demme" "American director"))),
        Fixture.store,
        [issued (Movies_findOne (by_Director_Name "Jonathan Demme"))]).
Proof.
  split.
  - apply (proj1 (@getDirector_answers Fixture.verifyToken Fixture.store
                    (Fixture.request "" "" "Nobody" Fixture.no_body) eq_refl)).
    intros m [<-|[]]. discriminate.
  - apply (proj2 (@getDirector_answers Fixture.verifyToken Fixture.store
                    (Fixture.request "" "" "Jonathan Demme" Fixture.no_body)
                    eq_refl)
                 [] Fixture.silence []).
    + reflexivity.
    + intros x [].
    + reflexivity.
Defined.

Lemma addFavoriteMovie_appends_witness :
  run reliable
    (addFavoriteMovie Fixture.verifyToken
       (Fixture.request "alice1" "5c3bd189515a081b363cb7e4" "" Fixture.no_body))
    Fixture.store []
  = (mkResponse 200
       (JsonBody (JUser (with_FavoriteMovies Fixture.alice
                           ["5c3bd189515a081b363cb7e4";
                            "5c3bd189515a081b363cb7e4"]))),
     mkStore [with_FavoriteMovies Fixture.alice
                ["5c3bd189515a081b363cb7e4"; "5c3bd189515a081b363cb7e4"];
              Fixture.bobby]
             [Fixture.silence],
     [issued (Users_findOneAndUpdate (Some "alice1")
                (push_FavoriteMovies "5c3bd189515a081b363cb7e4"))]).
Proof.
  apply (@addFavoriteMovie_appends Fixture.verifyToken Fixture.store
           (Fixture.request "alice1" "5c3bd189515a081b363cb7e4" ""
              Fixture.no_body)
           [] [Fixture.bobby] Fixture.alice).
  - reflexivity.
  - reflexivity.
  - intros x [].
  - reflexivity.
Defined.

Lemma removeFavoriteMovie_removes_all_witness :
  exists favorites,
    run reliable
      (removeFavoriteMovie Fixture.verifyToken
         (Fixture.request "alice1" "5c3bd189515a081b363cb7e4" ""
            Fixture.no_body))
      Fixture.store []
    = (mkResponse 200
         (JsonBody (JUser (with_FavoriteMovies Fixture.alice favorites))),
       mkStore [with_FavoriteMovies Fixture.alice favorites; Fixture.bobby]
               [Fixture.silence],
       [issued (Users_findOneAndUpdate (Some "alice1")
                  (pull_FavoriteMovies "5c3bd189515a081b363cb7e4"))])
    /\ ~ In "5c3bd189515a081b363cb7e4" favorites
    /\ (forall x, x <> "5c3bd189515a081b363cb7e4" ->
                  (In x favorites <-> In x (FavoriteMovies Fixture.alice))).
Proof.
  apply (@removeFavoriteMovie_removes_all Fixture.verifyToken Fixture.store
           (Fixture.request "alice1" "5c3bd189515a081b363cb7e4" ""
              Fixture.no_body)
           [] [Fixture.bobby] Fixture.alice).
  - reflexivity.
  - reflexivity.
  - intros x [].
  - reflexivity.
Defined.

(** * The registration checks on any request, and the two readings of [$set] *)

Lemma validate_nil (message : string) (ok : string -> bool)
    (l : list Instance) :
  validate message ok l = []
  <-> (forall i, In i l -> ok (Validator.toString (iValue i)) = true).
Proof.
  unfold validate. induction l as [|i r IH]; simpl.
  - split; [intros _ j [] | reflexivity].
  - rewrite app_is_nil, IH. split.
    + intros [Hi Hr] j [<-|Hj]; [|now apply Hr].
      destruct (ok (Validator.toString (iValue i))); [reflexivity|discriminate].
    + intros H. split; [|intros j Hj; apply H; now right].
      now rewrite (H i (or_introl eq_refl)).
Qed.


(** The instances validated carry exactly the values [reads] describes. *)
Lemma getData_reads (field : string) (b h q : option string) (v : string) :
  reads b h q v
  <-> exists i, In i (getData (selectFields field b h q))
                /\ Validator.toString (iValue i) = v.
Proof.
  unfold reads, getData, selectFields.
  destruct b as [b|], h as [h|], q as [q|]; simpl; split.
  all: try (intros [H|[H|[H|(H1 & H2 & H3 & H4)]]]; try discriminate;
            try (inversion H; subst); subst;
            solve [ eexists; split; [left; reflexivity | reflexivity]
                  | eexists; split; [right; left; reflexivity | reflexivity]
                  | eexists; split;
                    [right; right; left; reflexivity | reflexivity] ]).
  all: intros (i & Hi & <-);
    repeat (destruct Hi as [<-|Hi]; [simpl; tauto|]); contradiction.
Qed.

Section RegistrationFacts.

Variable hashPassword : option string -> Error + string.
Variable isEmail : string -> bool.

(** On a request that carries the fields in its body only, the checks
    are those of [validationResult] and the handler is [createUser]. *)
Lemma validationResult_of_nowhere (req : Request) :
  validationResult_of isEmail nowhere req = validationResult isEmail req.
Proof.
  unfold validationResult_of, validationResult, check, validate, getData,
    selectFields.
  destruct (bUsername (body req)), (bPassword (body req)), (bEmail (body req));
    simpl; rewrite !app_nil_r; reflexivity.
Qed.

Lemma createUser_anywhere_nowhere (req : Request) :
  createUser_anywhere hashPassword isEmail nowhere req
  = createUser hashPassword isEmail req.
Proof.
  unfold createUser_anywhere. rewrite validationResult_of_nowhere. reflexivity.
Qed.

Lemma characters_empty (v : string) : 5 <= Validator.characters v -> v <> "".
Proof. intros H E. subst v. unfold Validator.characters in H. simpl in H. lia. Qed.

(** The checks find nothing exactly when every value checked passes. *)
Lemma validationResult_of_empty_iff (e : Elsewhere) (req : Request) :
  validationResult_of isEmail e req = []
  <-> accepted_submission isEmail e req.
Proof.
  unfold validationResult_of, accepted_submission. cbv zeta.
  rewrite !app_is_nil, !validate_nil. split.
  - intros (Hlen & Halnum & Hpw & Hemail). repeat split.
    + apply (getData_reads "Username") in H as (i & Hi & <-).
      specialize (Hlen i Hi). specialize (Halnum i Hi).
      unfold Validator.isLength_min in Hlen. apply Nat.leb_le in Hlen.
      exact Hlen.
    + apply (getData_reads "Username") in H as (i & Hi & <-).
      specialize (Halnum i Hi). unfold Validator.isAlphanumeric in Halnum.
      apply andb_true_iff in Halnum as [_ Hall]. now apply every_true.
    + intros v Hv E. apply (getData_reads "Password") in Hv as (i & Hi & Hv).
      specialize (Hpw i Hi). rewrite Hv, E in Hpw. discriminate.
    + intros v Hv. apply (getData_reads "Email") in Hv as (i & Hi & <-).
      now apply Hemail.
  - intros (Huser & Hpw & Hemail). repeat split.
    + intros i Hi. unfold Validator.isLength_min. apply Nat.leb_le.
      apply Huser. apply (getData_reads "Username"). now exists i.
    + intros i Hi. unfold Validator.isAlphanumeric.
      assert (Hr : reads (bUsername (body req)) (hUsername e) (qUsername e)
                     (Validator.toString (iValue i))).
      { apply (getData_reads "Username"). now exists i. }
      destruct (Huser _ Hr) as [Hlen Hall].
      apply andb_true_iff. split.
      * apply negb_true_iff, String.eqb_neq. now apply characters_empty.
      * now apply every_true.
    + intros i Hi. apply negb_true_iff. unfold Validator.isEmpty.
      apply Nat.eqb_neq.
      assert (Hr : reads (bPassword (body req)) (hPassword e) (qPassword e)
                     (Validator.toString (iValue i))).
      { apply (getData_reads "Password"). now exists i. }
      apply Hpw in Hr. destruct (Validator.toString (iValue i));
        [congruence | discriminate].
    + intros i Hi. apply Hemail. apply (getData_reads "Email"). now exists i.
Qed.

End RegistrationFacts.

Section RegistrationRoute.

Variable hashPassword : option string -> Error + string.
Variable isEmail : string -> bool.



(** X9: [POST /users] either answers 201, and then every value checked
    passed, no stored user had the Username of the body, and the store
    gained exactly one user, made of the Username, Email and Birthday of
    the body, the digest and no favorites; or it answers 400, 422 or 500
    and the store is as it was. *)
Theorem createUser_anywhere_outcomes (faults : nat -> option Error)
    (e : Elsewhere) (req : Request) (s : Store) :
  let r := run faults (createUser_anywhere hashPassword isEmail e req) s [] in
  (exists digest,
      hashPassword (bPassword (body req)) = inr digest
      /\ accepted_submission isEmail e req
      /\ (forall u, In u (users s) -> Username u <> bUsername (body req))
      /\ answer_of r
         = mkResponse 201
             (JsonBody (JUser (mkUser (bUsername (body req)) (Some digest)
                                 (bEmail (body req)) (bBirthday (body req)) [])))
      /\ store_of r
         = mkStore (users s
                    ++ [mkUser (bUsername (body req)) (Some digest)
                               (bEmail (body req)) (bBirthday (body req)) []])
                   (movies s))
  \/ (In (status_of r) [400; 422; 500] /\ store_of r = s).
Proof.
  intros r. subst r.
  unfold createUser_anywhere, createUser_after, then_catch.
  destruct (validationResult_of isEmail e req) as [|err r] eqn:Hvalid; simpl.
  2:{ right. split; [tauto | reflexivity]. }
  apply validationResult_of_empty_iff in Hvalid.
  destruct (hashPassword (bPassword (body req))) as [thrown|digest] eqn:Hhash.
  { right. simpl. split; [tauto | reflexivity]. }
  simpl. destruct (faults 0) as [err|].
  { right. simpl. split; [tauto | reflexivity]. }
  simpl.
  destruct (Collection.findOne (has_Username (bUsername (body req))) (users s))
    as [taken|] eqn:Hfind.
  { right. simpl. split; [tauto | reflexivity]. }
  simpl. destruct (faults 1) as [err|].
  { right. simpl. split; [tauto | reflexivity]. }
  left. exists digest. simpl.
  split; [reflexivity|]. split; [exact Hvalid|].
  split; [|split; reflexivity].
  intros u Hu E.
  pose proof (findOne_none_inv _ _ Hfind u Hu) as Hno.
  apply has_Username_true in E. congruence.
Qed.

End RegistrationRoute.



(** ** [PUT /users/:Username] under the two readings of [$set] *)

Lemma updateOne_ext (A : Type) (p : A -> bool) (f g : A -> A) (l : list A) :
  (forall x, f x = g x) ->
  Collection.updateOne p f l = Collection.updateOne p g l.
Proof.
  intros H. induction l as [|x r IH]; simpl; [reflexivity|].
  destruct (p x); [now rewrite H | now rewrite IH].
Qed.

Lemma apply_update_on_null (up : Update) (u : User) :
  apply_update_on stored_as_null up u = apply_update up u.
Proof.
  destruct up as [[n|] [p|] [e|] [b|] | id | id]; reflexivity.
Qed.

Lemma perform_on_null (X : Type) (q : Query X) (s : Store) :
  perform_on stored_as_null q s = perform q s.
Proof.
  destruct q; try reflexivity. simpl.
  rewrite (updateOne_ext _ _ (apply_update u) _ (apply_update_on_null u)).
  destruct (Collection.findOne (has_Username username) (users s)); simpl;
    [now rewrite apply_update_on_null | reflexivity].
Qed.

(** [run] is [run_on] with [undefined] stored as [null]. *)
Lemma run_on_null (A : Type) (faults : nat -> option Error) (p : Prog A)
    (s : Store) (log : list Issued) :
  run_on stored_as_null faults p s log = run faults p s log.
Proof.
  revert s log. induction p as [a|X q k IH]; intros s log; simpl.
  - reflexivity.
  - destruct (faults (length log)); [apply IH|].
    rewrite perform_on_null. destruct (perform q s). apply IH.
Qed.

Section ProfileUpdate.

Variable hashPassword : option string -> Error + string.
Variable verifyToken : option string -> bool.


End ProfileUpdate.



(** ** A rejected query *)

Section RejectedQuery.

Variable hashPassword : option string -> Error + string.
Variable verifyToken : option string -> bool.
Variable isEmail : string -> bool.

(** X5: when the storage layer rejects the first query of a request, the
    store stays as it was and the query is not sent again: either the
    request issued no query at all, or it issued that one and the answer
    is 500 with the text of the error after the prefix of its route. *)
Theorem rejected_query_is_500 (faults : nat -> option Error) (e : Endpoint)
    (req : Request) (s : Store) (err : Error) :
  faults 0 = Some err ->
  let r := run faults (handler hashPassword verifyToken isEmail e req) s [] in
  store_of r = s
  /\ (log_of r = []
      \/ (exists q, log_of r = [q])
         /\ answer_of r
            = mkResponse 500 (Text (error_prefix e ++ Error_toString err))).
Proof.
  intros Hfault r. subst r.
  destruct e; enter_any.
  all: try (destruct (verifyToken (authorization req)); simpl;
            [|split; [reflexivity | left; reflexivity]]).
  all: try (destruct (isEmpty (validationResult isEmail req)); simpl;
            [|split; [reflexivity | left; reflexivity]]).
  all: try (destruct (hashPassword (bPassword (body req))); simpl;
            [split; [reflexivity | left; reflexivity]|]).
  all: simpl; try rewrite Hfault; simpl.
  all: split; [reflexivity|].
  all: try (left; reflexivity).
  all: right; split; [eexists; reflexivity | reflexivity].
Qed.

End RejectedQuery.

Lemma rejected_query_is_500_witness :
  store_of
    (run (first_query_fails (mkError "MongoError" ""))
       (handler Fixture.hashPassword Fixture.verifyToken Fixture.isEmail
          GET_users (Fixture.request "" "" "" Fixture.no_body))
       Fixture.store [])
  = Fixture.store
  /\ (log_of
        (run (first_query_fails (mkError "MongoError" ""))
           (handler Fixture.hashPassword Fixture.verifyToken Fixture.isEmail
              GET_users (Fixture.request "" "" "" Fixture.no_body))
           Fixture.store [])
      = []
      \/ (exists q,
           log_of
             (run (first_query_fails (mkError "MongoError" ""))
                (handler Fixture.hashPassword Fixture.verifyToken
                   Fixture.isEmail GET_users
                   (Fixture.request "" "" "" Fixture.no_body))
                Fixture.store [])
           = [q])
         /\ answer_of
              (run (first_query_fails (mkError "MongoError" ""))
                 (handler Fixture.hashPassword Fixture.verifyToken
                    Fixture.isEmail GET_users
                    (Fixture.request "" "" "" Fixture.no_body))
                 Fixture.store [])
            = mkResponse 500 (Text "error:MongoError")).
Proof.
  apply (@rejected_query_is_500 Fixture.hashPassword Fixture.verifyToken
           Fixture.isEmail (first_query_fails (mkError "MongoError" ""))
           GET_users (Fixture.request "" "" "" Fixture.no_body) Fixture.store
           (mkError "MongoError" "")).
  reflexivity.
Defined.
